(** * PPT_Creator: the slide builder of [logic.py]

    A shallow embedding of [generate_image], [fetch_image] and
    [create_ppt_file] from [src/logic.py], of the content generator and of
    the chat page of [src/app.py], and the properties of the deck they
    build.

    The Python code mutates a python-pptx presentation, talks to the network
    and writes files.  Here all of that is one explicit state ([State]): the
    slides built so far, the files on disk, the log of network requests and
    sleeps, and the number of requests made.  What the outside world answers
    is given by an environment ([Env]), and so is what python-pptx takes
    as an image and as the text of a paragraph.  Exceptions are a result
    value. *)

From Stdlib Require Import ZArith QArith Qround Lia List String Ascii.
From Stdlib Require Import DecimalString DecimalNat.
From stdpp Require Import base list strings gmap.

(** ** Python values *)

(** A Python [str] is a sequence of Unicode code points, and [len] counts
    code points. *)
Definition pystr := list N.

Definition bytes := list Byte.byte.

(** An ASCII literal of the source as a [str]. *)
Definition lit (s : string) : pystr := N_of_ascii <$> list_ascii_of_string s.

(** The bullet glyph of the f-strings [f"• {item}"], U+2022. *)
Definition BULLET : N := 8226%N.

(** [f"• {item}"] *)
Definition bulleted (item : pystr) : pystr := BULLET :: 32%N :: item.

(** Truth value of a string: the empty string is false. *)
Definition truthy (s : pystr) : bool :=
  match s with
  | [] => false
  | _ :: _ => true
  end.

(** [str.isspace] on one code point, the white space of CPython's Unicode
    database. *)
Definition isspace (c : N) : bool :=
  ((9 <=? c) && (c <=? 13) || (28 <=? c) && (c <=? 32)
   || (c =? 133) || (c =? 160) || (c =? 5760)
   || (8192 <=? c) && (c <=? 8202)
   || (c =? 8232) || (c =? 8233) || (c =? 8239) || (c =? 8287)
   || (c =? 12288))%N.

Fixpoint lstrip (s : pystr) : pystr :=
  match s with
  | [] => []
  | c :: s' => if isspace c then lstrip s' else s
  end.

Definition rstrip (s : pystr) : pystr := rev (lstrip (rev s)).

(** [s.strip()] *)
Definition strip (s : pystr) : pystr := rstrip (lstrip s).

(** [sum(len(b) for b in bullets)] *)
Definition total_len (bullets : list pystr) : nat :=
  sum_list (length <$> bullets).

(** [math.ceil(item_count / 2)]: true division, then the ceiling. *)
Definition ceil_half (item_count : nat) : nat :=
  Z.to_nat (Qceiling (inject_Z (Z.of_nat item_count) / 2)).

(** ** The content tree

    The value [json.loads] returns for the generator's output: a dict with
    the keys of the prompt's schema.  A key that is absent is [None]; the
    code reads every key with [dict.get] and a default. *)

Record SlideInfo := mkSlideInfo {
  title : option pystr;
  content : option (list pystr);
  image_description : option pystr
}.

Record ConclusionData := mkConclusionData {
  conclusion_title : option pystr;
  conclusion_content : option (list pystr)
}.

Record ContentTree := mkContentTree {
  presentation_title : option pystr;
  table_of_contents : option (list pystr);
  slides : option (list SlideInfo);
  conclusion : option ConclusionData
}.

(** What [json.loads] can return: an object, read as a content tree, or a
    JSON value that is not an object (an array, a string, a number, a
    boolean, null), which has no [get]. *)
Inductive json_doc :=
| JObject (data : ContentTree)
| JNotObject.

(** ** The deck

    Lengths are in inches, as the arguments of [Inches(...)]; font sizes and
    spacings in points, as the arguments of [Pt(...)]. *)

Record Length := Inches { inches : Q }.
Record Points := Pt { points : nat }.

Inductive RGBColor := rgb (r g b : Z).

Inductive PP_ALIGN := LEFT | CENTER.
Inductive MSO_ANCHOR := TOP.

(** A paragraph, by what the code assigns to it: [text] is the value given
    to [p.text], the other fields the values given to the font, the
    alignment, the spacing and the level; [None] is an attribute the code
    leaves alone. *)
Record Paragraph := mkParagraph {
  text : pystr;
  font_size : option Points;
  font_bold : bool;
  font_color : option RGBColor;
  alignment : option PP_ALIGN;
  space_before : option Points;
  space_after : option Points;
  level : option nat
}.

(** A fresh text frame of python-pptx holds one empty paragraph;
    [add_paragraph] appends after it. *)
Definition empty_paragraph : Paragraph :=
  mkParagraph [] None false None None None None None.

Inductive Shape :=
| Rectangle (left top width height : Length) (fill : RGBColor)
| TextBox (left top width height : Length) (word_wrap : bool)
    (vertical_anchor : option MSO_ANCHOR) (paragraphs : list Paragraph)
| Picture (image : bytes) (left top width : Length)
    (line_color : RGBColor) (line_width : Points).

(** The paragraphs of a shape; only text boxes have some. *)
Definition paragraphs_of (sh : Shape) : list Paragraph :=
  match sh with
  | TextBox _ _ _ _ _ _ paragraphs => paragraphs
  | _ => []
  end.

(** The texts of the paragraphs of a shape. *)
Definition shape_texts (sh : Shape) : list pystr := text <$> paragraphs_of sh.

Record Slide := mkSlide {
  background : option RGBColor;
  shapes : list Shape
}.

Definition blank_slide : Slide := mkSlide None [].

(** ** The world *)

Inductive Event :=
| EvSearch (query : pystr)
| EvGet (url : pystr)
| EvSleep (seconds : nat).

Inductive FileContent :=
| ImageFile (data : bytes)
| DeckFile (deck : list Slide).

Record State := mkState {
  prs : list Slide;
  files : gmap string FileContent;
  log : list Event;
  requests : nat
}.

(** Answer of the Pexels search: the status code and, for each photo of the
    body, its [src.landscape] URL.  Whatever raises inside the [try] of
    [generate_image] (a transport error, a body that is not JSON, a photo
    without the key) is [SearchException]. *)
Inductive search_reply :=
| SearchResponse (status_code : Z) (photos : list pystr)
| SearchException.

(** Answer of [requests.get] on an image URL. *)
Inductive get_reply :=
| Response (status_code : Z) (body : bytes)
| RequestException.

(** What the code does not decide: the JSON decoder, the API key of the
    process environment, the answers of the network (indexed by the number
    of requests made before), whether python-pptx accepts some bytes as an
    image, whether it accepts a text as the text of a paragraph, and the
    random hexadecimal digits of [uuid.uuid4().hex]. *)
Record Env := mkEnv {
  json_loads : pystr → option json_doc;
  pexels_api_key : option pystr;
  pexels_search : nat → pystr → search_reply;
  requests_get : nat → pystr → get_reply;
  add_picture_ok : bytes → bool;
  text_ok : pystr → bool;
  uuid4_hex : string
}.

(** ** A state and exception monad *)

Inductive exn :=
| AttributeError
| FileNotFoundError
| UnidentifiedImageError
| ValueError.

Inductive result (A : Type) :=
| Ok (a : A)
| Raise (e : exn).
Arguments Ok {A} a.
Arguments Raise {A} e.

Definition M (A : Type) : Type := State → result A * State.

Definition ret {A} (a : A) : M A := λ st, (Ok a, st).

Definition raise {A} (e : exn) : M A := λ st, (Raise e, st).

Definition bind {A B} (m : M A) (f : A → M B) : M B :=
  λ st, match m st with
        | (Ok a, st') => f a st'
        | (Raise e, st') => (Raise e, st')
        end.

(** [try: m except Exception: handler] *)
Definition try_except {A} (m : M A) (handler : exn → M A) : M A :=
  λ st, match m st with
        | (Ok a, st') => (Ok a, st')
        | (Raise e, st') => handler e st'
        end.

Definition modify (f : State → State) : M unit := λ st, (Ok tt, f st).

Notation "'let*' x ':=' m 'in' k" := (bind m (λ x, k))
  (at level 10, x binder, m at level 100, k at level 200).
Notation "m1 '>>' m2" := (bind m1 (λ _, m2))
  (at level 100, m2 at level 200, right associativity).

(** [for i, x in enumerate(l): body], with [i] starting at [start]. *)
Fixpoint for_enumerate {A} (body : nat → A → M unit) (start : nat) (l : list A)
  : M unit :=
  match l with
  | [] => ret tt
  | x :: l' => body start x >> for_enumerate body (S start) l'
  end.

(** [for x in l: body] over a list of shapes to add. *)
Fixpoint for_each {A} (body : A → M unit) (l : list A) : M unit :=
  match l with
  | [] => ret tt
  | x :: l' => body x >> for_each body l'
  end.

(** ** State updates *)

Definition set_prs (p : list Slide) (st : State) : State :=
  mkState p (files st) (log st) (requests st).

Definition set_files (f : gmap string FileContent) (st : State) : State :=
  mkState (prs st) f (log st) (requests st).

(** One more request to the network, logged. *)
Definition count_request (e : Event) (st : State) : State :=
  mkState (prs st) (files st) (log st ++ [e]) (S (requests st)).

Definition log_event (e : Event) (st : State) : State :=
  mkState (prs st) (files st) (log st ++ [e]) (requests st).

(** Apply [f] to the last element of a list: the slide being built is the
    one added last. *)
Fixpoint update_last {A} (f : A → A) (l : list A) : list A :=
  match l with
  | [] => []
  | [x] => [f x]
  | x :: l' => x :: update_last f l'
  end.

Definition slide_add_shape (sh : Shape) (s : Slide) : Slide :=
  mkSlide (background s) (shapes s ++ [sh]).

Definition slide_set_background (c : RGBColor) (s : Slide) : Slide :=
  mkSlide (Some c) (shapes s).

(** ** The program *)

Section Program.

Variable env : Env.

(** *** Primitives of python-pptx, [requests], [time] and [os] *)

(** [prs = Presentation()] *)
Definition Presentation : M unit := modify (set_prs []).

(** [slide = prs.slides.add_slide(prs.slide_layouts[6])] *)
Definition add_slide : M unit :=
  modify (λ st, set_prs (prs st ++ [blank_slide]) st).

(** [slide.shapes.add_shape(...)] with the fill the code gives the new
    shape: one more shape on the slide added last. *)
Definition add_shape (sh : Shape) : M unit :=
  modify (λ st, set_prs (update_last (slide_add_shape sh) (prs st)) st).

(** [p.text = value].  python-pptx writes the text into the XML of the
    paragraph through lxml, which raises [ValueError] on a text XML cannot
    hold (U+FFFE, U+FFFF, a lone surrogate); [text_ok] tells which texts it
    takes.  An empty text adds no run to the paragraph and is always
    taken. *)
Definition writable (value : pystr) : bool :=
  negb (truthy value) || text_ok env value.

(** All the texts of a list are taken. *)
Definition texts_ok (values : list pystr) : bool := forallb writable values.

(** [slide.shapes.add_textbox(...)] followed by the paragraphs the code
    writes into the box, each with its [p.text = ...] and its font.  No
    handler of [create_ppt_file] encloses a text setter: when one raises,
    the exception leaves the function, and the presentation, a local of the
    call, is lost with it. *)
Definition add_textbox (box : Shape) : M unit :=
  if texts_ok (shape_texts box) then add_shape box
  else raise ValueError.

(** [slide.background.fill.solid(); fill.fore_color.rgb = c] *)
Definition fill_background (c : RGBColor) : M unit :=
  modify (λ st, set_prs (update_last (slide_set_background c) (prs st)) st).

(** [requests.get('https://api.pexels.com/v1/search', ...)] *)
Definition search_get (query : pystr) : M search_reply :=
  λ st, (Ok (pexels_search env (requests st) query),
         count_request (EvSearch query) st).

(** [requests.get(url, timeout=timeout, headers=headers)] *)
Definition image_get (url : pystr) : M get_reply :=
  λ st, (Ok (requests_get env (requests st) url),
         count_request (EvGet url) st).

(** [time.sleep(seconds)] *)
Definition sleep (seconds : nat) : M unit :=
  modify (log_event (EvSleep seconds)).

(** [with open(name, 'wb') as f: f.write(data)] *)
Definition write_file (name : string) (data : bytes) : M unit :=
  modify (λ st, set_files (<[name := ImageFile data]> (files st)) st).

(** [os.remove(name)] *)
Definition os_remove (name : string) : M unit :=
  λ st, match files st !! name with
        | Some _ => (Ok tt, set_files (delete name (files st)) st)
        | None => (Raise FileNotFoundError, st)
        end.

(** [pic = slide.shapes.add_picture(name, left, top, width=width)] followed
    by the border [pic.line.color.rgb = color; pic.line.width = line_width].
    python-pptx raises when the file is missing or is not an image it can
    read. *)
Definition add_picture (name : string) (left top width : Length)
    (color : RGBColor) (line_width : Points) : M unit :=
  λ st, match files st !! name with
        | Some (ImageFile data) =>
            if add_picture_ok env data
            then add_shape (Picture data left top width color line_width) st
            else (Raise UnidentifiedImageError, st)
        | _ => (Raise FileNotFoundError, st)
        end.

(** [prs.save(filename)] *)
Definition save (filename : string) : M unit :=
  modify (λ st, set_files (<[filename := DeckFile (prs st)]> (files st)) st).

(** *** [generate_image] (lines 115-150) *)

Definition generate_image (prompt : pystr) : M (option pystr) :=
  if negb (truthy (default [] (pexels_api_key env))) then ret None
  else
    let* response := search_get prompt in
    match response with
    | SearchResponse status_code photos =>
        if (status_code =? 200)%Z then
          match photos with
          | image_url :: _ => ret (Some image_url)
          | [] => ret None
          end
        else ret None
    | SearchException => ret None
    end.

(** *** [fetch_image] (lines 184-199) *)

(** The loop [for attempt in range(retries)], over the attempts left. *)
Fixpoint fetch_attempts (url : pystr) (attempts : list nat) : M (option bytes) :=
  match attempts with
  | [] => ret None
  | attempt :: rest =>
      let* resp := image_get url in
      match resp with
      | Response status_code body =>
          if (status_code =? 200)%Z then ret (Some body)
          else sleep (1 * (attempt + 1)) >> fetch_attempts url rest
      | RequestException =>
          sleep (1 * (attempt + 1)) >> fetch_attempts url rest
      end
  end.

Definition fetch_image (url : pystr) (retries : nat) : M (option bytes) :=
  fetch_attempts url (seq 0 retries).

(** *** [create_ppt_file] (lines 154-504)

    The theme colour is resolved first ([hex_to_rgb], with navy as the
    fallback); [NAVY_BLUE] is the resolved colour. *)

Variable NAVY_BLUE : RGBColor.

Definition DARK_GRAY : RGBColor := rgb 80 80 80.

(** [data.get(...)] at line 216, the first use of [data]: a value that is
    not a dict has no [get]. *)
Definition as_dict (doc : json_doc) : M ContentTree :=
  match doc with
  | JObject data => ret data
  | JNotObject => raise AttributeError
  end.

(** Lines 227-232. *)
Definition title_font_size (len_title : nat) : Points :=
  if 40 <? len_title then Pt 32
  else if 25 <? len_title then Pt 38
  else Pt 44.

(** Lines 272-280: font size and spacing of the table of contents. *)
Definition toc_sizing (item_count : nat) : Points * Points :=
  if 8 <? item_count then (Pt 14, Pt 8)
  else if 5 <? item_count then (Pt 16, Pt 12)
  else (Pt 20, Pt 14).

(** The paragraph of one item of the table of contents; only the single
    column sets the alignment. *)
Definition toc_paragraph (sizing : Points * Points) (align : option PP_ALIGN)
    (item : pystr) : Paragraph :=
  mkParagraph (bulleted item) (Some (fst sizing)) false (Some DARK_GRAY)
    align None (Some (snd sizing)) None.

(** Lines 284-322: the text boxes of the items. *)
Definition toc_boxes (toc_items : list pystr) : list Shape :=
  let item_count := length toc_items in
  let sizing := toc_sizing item_count in
  if 4 <? item_count then
    let mid := ceil_half item_count in
    let col1_items := take mid toc_items in
    let col2_items := drop mid toc_items in
    [ TextBox (Inches 1) (Inches 2) (Inches 4) (Inches 3) true None
        (empty_paragraph :: (toc_paragraph sizing None <$> col1_items));
      TextBox (Inches 5.5) (Inches 2) (Inches 4) (Inches 3) true None
        (empty_paragraph :: (toc_paragraph sizing None <$> col2_items)) ]
  else
    [ TextBox (Inches 2) (Inches 2) (Inches 6) (Inches 3) true None
        (empty_paragraph :: (toc_paragraph sizing (Some LEFT) <$> toc_items)) ].

(** Lines 342-347. *)
Definition content_title_size (len_title : nat) : Points :=
  if 50 <? len_title then Pt 24
  else if 35 <? len_title then Pt 26
  else Pt 28.

(** Lines 359-365: the image of a content slide, if one is asked for, found
    and downloaded. *)
Definition slide_image (include_images : bool) (slide_info : SlideInfo)
  : M (option bytes) :=
  if include_images && truthy (default [] (image_description slide_info)) then
    let* img_url := generate_image (default [] (image_description slide_info)) in
    match img_url with
    | Some url => if truthy url then fetch_image url 3 else ret None
    | None => ret None
    end
  else ret None.

(** Lines 386-388. *)
Definition slide_bullets (slide_info : SlideInfo) : list pystr :=
  let bullets :=
    strip <$> List.filter (λ b, truthy (strip b)) (default [] (content slide_info)) in
  match bullets with
  | [] => [lit "(No content generated)"]
  | _ :: _ => bullets
  end.

(** Lines 394-402: font size and spacing of the body of a content slide. *)
Definition content_sizing (total_chars : nat) : Points * Points :=
  if 600 <? total_chars then (Pt 12, Pt 4)
  else if 400 <? total_chars then (Pt 14, Pt 6)
  else (Pt 16, Pt 8).

(** Lines 405-412. *)
Definition content_paragraph (sizing : Points * Points) (bullet : pystr)
  : Paragraph :=
  mkParagraph (bulleted bullet) (Some (fst sizing)) false (Some DARK_GRAY)
    None (Some (snd sizing)) (Some (snd sizing)) (Some 0).

(** [f"temp_img_{i}.jpg"] *)
Definition temp_filename (i : nat) : string :=
  ("temp_img_" ++ NilEmpty.string_of_uint (Nat.to_uint i) ++ ".jpg")%string.

(** Lines 416-428: stage the bytes in a file, place the picture, remove the
    file; any exception on the way is printed and dropped. *)
Definition place_image (i : nat) (img_data : option bytes) : M unit :=
  match img_data with
  | Some data =>
      try_except
        (write_file (temp_filename i) data >>
         add_picture (temp_filename i) (Inches 6.0) (Inches 2.0) (Inches 3.5)
           NAVY_BLUE (Pt 2) >>
         os_remove (temp_filename i))
        (λ _, ret tt)
  | None => ret tt
  end.

(** Lines 328-428: the body of the loop over the content slides. *)
Definition content_slide (include_images : bool) (i : nat)
    (slide_info : SlideInfo) : M unit :=
  add_slide >>
  let slide_title := default (lit "Slide") (title slide_info) in
  add_textbox (TextBox (Inches 0.5) (Inches 0.3) (Inches 9) (Inches 0.8) true None
    [mkParagraph slide_title (Some (content_title_size (length slide_title)))
       true (Some NAVY_BLUE) None None None None]) >>
  add_shape (Rectangle (Inches 0.5) (Inches 1.1) (Inches 9) (Inches 0.03)
    NAVY_BLUE) >>
  let* img_data := slide_image include_images slide_info in
  let has_image := bool_decide (img_data ≠ None) in
  let content_width := if has_image then 5.0%Q else 9.0%Q in
  let bullets := slide_bullets slide_info in
  let total_chars := total_len bullets in
  add_textbox (TextBox (Inches 0.5) (Inches 1.4) (Inches content_width)
    (Inches 3.9) true (Some TOP)
    (empty_paragraph :: (content_paragraph (content_sizing total_chars) <$> bullets))) >>
  place_image i img_data.

(** Lines 460-468: font size and spacing of the body of the conclusion. *)
Definition conclusion_sizing (total_conc_chars : nat) : Points * Points :=
  if 500 <? total_conc_chars then (Pt 14, Pt 8)
  else if 300 <? total_conc_chars then (Pt 16, Pt 10)
  else (Pt 20, Pt 14).

(** Lines 471-477. *)
Definition conclusion_paragraph (sizing : Points * Points) (point : pystr)
  : Paragraph :=
  mkParagraph (bulleted point) (Some (fst sizing)) false (Some DARK_GRAY)
    None None (Some (snd sizing)) (Some 0).

(** Lines 161-504: everything after the decoding of the input. *)
Definition build_deck (doc : json_doc) (include_images : bool)
  : M (option string) :=
  Presentation >>
  (* 1. Title Slide *)
  add_slide >>
  add_shape (Rectangle (Inches 0) (Inches 0) (Inches 10) (Inches 0.5)
    NAVY_BLUE) >>
  let* data := as_dict doc in
  let title_text := default (lit "Presentation") (presentation_title data) in
  add_textbox (TextBox (Inches 1) (Inches 2) (Inches 8) (Inches 1.5) true None
    [empty_paragraph;
     mkParagraph title_text (Some (title_font_size (length title_text)))
       true (Some NAVY_BLUE) (Some CENTER) None None None]) >>
  add_textbox (TextBox (Inches 1) (Inches 3.5) (Inches 8) (Inches 1) false None
    [empty_paragraph;
     mkParagraph (lit "Generated by AI Agent") (Some (Pt 20)) false
       (Some DARK_GRAY) (Some CENTER) None None None]) >>
  (* 2. Table of Contents *)
  add_slide >>
  add_textbox (TextBox (Inches 0.5) (Inches 0.5) (Inches 9) (Inches 1) false None
    [empty_paragraph;
     mkParagraph (lit "Table of Contents") (Some (Pt 32)) true
       (Some NAVY_BLUE) (Some CENTER) None None None]) >>
  add_shape (Rectangle (Inches 4) (Inches 1.5) (Inches 2) (Inches 0.05)
    NAVY_BLUE) >>
  let toc_items := default [] (table_of_contents data) in
  for_each add_textbox (toc_boxes toc_items) >>
  (* 3. Content Slides *)
  let slides_content := default [] (slides data) in
  for_enumerate (content_slide include_images) 0 slides_content >>
  (* 4. Conclusion Slide *)
  let conclusion_data :=
    default (mkConclusionData None None) (conclusion data) in
  add_slide >>
  add_textbox (TextBox (Inches 0.5) (Inches 0.3) (Inches 9) (Inches 0.8) false
    None
    [mkParagraph (default (lit "Conclusion") (conclusion_title conclusion_data))
       (Some (Pt 28)) true (Some NAVY_BLUE) None None None None]) >>
  add_shape (Rectangle (Inches 0.5) (Inches 1.1) (Inches 9) (Inches 0.03)
    NAVY_BLUE) >>
  let conc_points := default [] (conclusion_content conclusion_data) in
  let total_conc_chars := total_len conc_points in
  add_textbox (TextBox (Inches 1) (Inches 1.5) (Inches 8) (Inches 3.5) true None
    (empty_paragraph ::
     (conclusion_paragraph (conclusion_sizing total_conc_chars) <$> conc_points))) >>
  (* 5. Thank You Slide *)
  add_slide >>
  fill_background NAVY_BLUE >>
  add_textbox (TextBox (Inches 2) (Inches 2) (Inches 6) (Inches 2) true None
    [empty_paragraph;
     mkParagraph (lit "Thank You") (Some (Pt 54)) true
       (Some (rgb 255 255 255)) (Some CENTER) None None None]) >>
  let unique_id := substring 0 6 (uuid4_hex env) in
  let filename :=
    ("generated_presentation_" ++ unique_id ++ ".pptx")%string in
  save filename >>
  ret (Some filename).

(** Lines 154-158: a text [json.loads] rejects ([JSONDecodeError]) gives
    [None] and nothing else happens. *)
Definition create_ppt_file (slide_data : pystr) (include_images : bool)
  : M (option string) :=
  match json_loads env slide_data with
  | None => ret None
  | Some doc => build_deck doc include_images
  end.

End Program.

(** ** The texts a run writes *)

(** The texts the loop body writes on the slide of an entry: the heading
    (line 337), then the bullets (line 407). *)
Definition slide_texts (slide_info : SlideInfo) : list pystr :=
  default (lit "Slide") (title slide_info)
  :: (bulleted <$> slide_bullets slide_info).

(** All the texts a run on [data] writes, in the order of the setters:
    lines 221, 239, 253, 296 to 318, 337 and 407 for each entry, 439, 473
    and 494. *)
Definition deck_texts (data : ContentTree) : list pystr :=
  let conclusion_data :=
    default (mkConclusionData None None) (conclusion data) in
  [default (lit "Presentation") (presentation_title data);
   lit "Generated by AI Agent"; lit "Table of Contents"]
  ++ (bulleted <$> default [] (table_of_contents data))
  ++ (default [] (slides data) ≫= slide_texts)
  ++ [default (lit "Conclusion") (conclusion_title conclusion_data)]
  ++ (bulleted <$> default [] (conclusion_content conclusion_data))
  ++ [lit "Thank You"].

(** ** Reading a deck *)

(** The paragraphs the code added with [add_paragraph], after the empty one
    the text frame starts with. *)
Definition added_paragraphs (sh : Shape) : list Paragraph :=
  tail (paragraphs_of sh).

Definition shape_width (sh : Shape) : Length :=
  match sh with
  | Rectangle _ _ w _ _ => w
  | TextBox _ _ w _ _ _ _ => w
  | Picture _ _ _ w _ _ => w
  end.


Definition is_picture (sh : Shape) : bool :=
  match sh with
  | Picture _ _ _ _ _ _ => true
  | _ => false
  end.

Definition pictures (s : Slide) : list Shape := List.filter is_picture (shapes s).

(** The text of the first paragraph of the first shape: the heading of a
    content slide and of the conclusion. *)
Definition slide_heading (s : Slide) : option pystr :=
  match shapes s with
  | TextBox _ _ _ _ _ _ (p :: _) :: _ => Some (text p)
  | _ => None
  end.

(** The body of a content slide is its third shape, after the heading and
    the separator line. *)
Definition slide_body (s : Slide) : option Shape := shapes s !! 2.


(** How many downloads a log holds. *)
Definition downloads (evs : list Event) : nat :=
  length (List.filter (λ e, match e with EvGet _ => true | _ => false end) evs).

(** An attempt of [fetch_image] fails on an exception and on any status
    other than 200. *)
Definition attempt_failed (r : get_reply) : bool :=
  match r with
  | Response status_code _ => negb (status_code =? 200)%Z
  | RequestException => true
  end.

Definition body_width (s : Slide) : option Length := shape_width <$> slide_body s.



(** ** The slides the code is expected to build *)

Section Expected.

Variable env : Env.
Variable NAVY_BLUE : RGBColor.

Definition title_slide (data : ContentTree) : Slide :=
  let title_text := default (lit "Presentation") (presentation_title data) in
  mkSlide None
    [ Rectangle (Inches 0) (Inches 0) (Inches 10) (Inches 0.5) NAVY_BLUE;
      TextBox (Inches 1) (Inches 2) (Inches 8) (Inches 1.5) true None
        [empty_paragraph;
         mkParagraph title_text (Some (title_font_size (length title_text)))
           true (Some NAVY_BLUE) (Some CENTER) None None None];
      TextBox (Inches 1) (Inches 3.5) (Inches 8) (Inches 1) false None
        [empty_paragraph;
         mkParagraph (lit "Generated by AI Agent") (Some (Pt 20)) false
           (Some DARK_GRAY) (Some CENTER) None None None] ].

Definition toc_slide (toc_items : list pystr) : Slide :=
  mkSlide None
    ([ TextBox (Inches 0.5) (Inches 0.5) (Inches 9) (Inches 1) false None
         [empty_paragraph;
          mkParagraph (lit "Table of Contents") (Some (Pt 32)) true
            (Some NAVY_BLUE) (Some CENTER) None None None];
       Rectangle (Inches 4) (Inches 1.5) (Inches 2) (Inches 0.05) NAVY_BLUE ]
     ++ toc_boxes toc_items).

(** The picture of a content slide: there is one when bytes were downloaded
    and python-pptx takes them. *)
Definition picture_shapes (img_data : option bytes) : list Shape :=
  match img_data with
  | Some data =>
      if add_picture_ok env data
      then [Picture data (Inches 6.0) (Inches 2.0) (Inches 3.5) NAVY_BLUE (Pt 2)]
      else []
  | None => []
  end.

Definition content_body (slide_info : SlideInfo) (img_data : option bytes)
  : Shape :=
  let bullets := slide_bullets slide_info in
  TextBox (Inches 0.5) (Inches 1.4)
    (Inches (if bool_decide (img_data ≠ None) then 5.0 else 9.0)) (Inches 3.9)
    true (Some TOP)
    (empty_paragraph ::
     (content_paragraph (content_sizing (total_len bullets)) <$> bullets)).

Definition content_slide_built (slide_info : SlideInfo)
    (img_data : option bytes) : Slide :=
  let slide_title := default (lit "Slide") (title slide_info) in
  mkSlide None
    ([ TextBox (Inches 0.5) (Inches 0.3) (Inches 9) (Inches 0.8) true None
         [mkParagraph slide_title
            (Some (content_title_size (length slide_title)))
            true (Some NAVY_BLUE) None None None None];
       Rectangle (Inches 0.5) (Inches 1.1) (Inches 9) (Inches 0.03) NAVY_BLUE;
       content_body slide_info img_data ]
     ++ picture_shapes img_data).

(** The files after the image of slide [i] was placed. *)
Definition files_after_image (i : nat) (img_data : option bytes)
    (f : gmap string FileContent) : gmap string FileContent :=
  match img_data with
  | Some data =>
      if add_picture_ok env data
      then delete (temp_filename i) (<[temp_filename i := ImageFile data]> f)
      else <[temp_filename i := ImageFile data]> f
  | None => f
  end.

Definition conclusion_slide (data : ContentTree) : Slide :=
  let conclusion_data :=
    default (mkConclusionData None None) (conclusion data) in
  let conc_points := default [] (conclusion_content conclusion_data) in
  mkSlide None
    [ TextBox (Inches 0.5) (Inches 0.3) (Inches 9) (Inches 0.8) false None
        [mkParagraph
           (default (lit "Conclusion") (conclusion_title conclusion_data))
           (Some (Pt 28)) true (Some NAVY_BLUE) None None None None];
      Rectangle (Inches 0.5) (Inches 1.1) (Inches 9) (Inches 0.03) NAVY_BLUE;
      TextBox (Inches 1) (Inches 1.5) (Inches 8) (Inches 3.5) true None
        (empty_paragraph ::
         (conclusion_paragraph (conclusion_sizing (total_len conc_points))
            <$> conc_points)) ].

Definition closing_slide : Slide :=
  mkSlide (Some NAVY_BLUE)
    [ TextBox (Inches 2) (Inches 2) (Inches 6) (Inches 2) true None
        [empty_paragraph;
         mkParagraph (lit "Thank You") (Some (Pt 54)) true
           (Some (rgb 255 255 255)) (Some CENTER) None None None] ].

(** The whole deck, given the content slides. *)
Definition deck_of (data : ContentTree) (content_slides : list Slide)
  : list Slide :=
  [title_slide data; toc_slide (default [] (table_of_contents data))]
  ++ content_slides ++ [conclusion_slide data; closing_slide].

(** The content slides built from the images found for them. *)
Definition content_slides_built (infos : list SlideInfo)
    (imgs : list (option bytes)) : list Slide :=
  zip_with content_slide_built infos imgs.

Definition deck_filename : string :=
  ("generated_presentation_" ++ substring 0 6 (uuid4_hex env) ++ ".pptx")%string.

End Expected.

(** The tree with another table of contents. *)
Definition with_toc (data : ContentTree) (toc : option (list pystr))
  : ContentTree :=
  mkContentTree (presentation_title data) toc (slides data) (conclusion data).

(** *** Code that only talks to the network

    Its result and what it logs depend on the log and on the number of
    requests only, and it never raises; the slides and the files are left as
    they are. *)

Definition net_only {A} (m : M A) : Prop :=
  ∀ l n, ∃ r evs k,
    ∀ p f, m (mkState p f l n) = (Ok r, mkState p f (l ++ evs) (n + k)).

(** ** The claims the code parts from, as the specification words them *)



(** The bands of C8 as the specification words them. *)
Definition toc_bands_as_stated (n : nat) : Prop :=
  (8 < n → toc_sizing n = (Pt 14, Pt 8)) ∧
  (5 ≤ n ≤ 8 → toc_sizing n = (Pt 16, Pt 12)) ∧
  (n ≤ 5 → toc_sizing n = (Pt 20, Pt 14)).


(** ** Reading a log *)

(** How many searches a log holds. *)
Definition searches (evs : list Event) : nat :=
  length (List.filter (λ e, match e with EvSearch _ => true | _ => false end) evs).


(** The seconds slept, in all. *)
Definition sleep_seconds (evs : list Event) : nat :=
  sum_list (evs ≫= λ e, match e with EvSleep seconds => [seconds] | _ => [] end).

(** The log of attempts that all fail: a request, then the sleep of the
    attempt. *)
Definition failed_log (url : pystr) (attempts : list nat) : list Event :=
  attempts ≫= λ attempt, [EvGet url; EvSleep (1 * (attempt + 1))].




(** ** Geometry and colours of a deck *)





(** ** The theme colour (lines 167-178) *)

(** [hex_color.lstrip('#')]: every leading [#] goes. *)
Fixpoint lstrip_hash (hex_color : pystr) : pystr :=
  match hex_color with
  | [] => []
  | c :: rest => if (c =? 35)%N then lstrip_hash rest else hex_color
  end.

(** The value of an ASCII hexadecimal digit. *)
Definition hex_digit (c : N) : option Z :=
  if ((48 <=? c) && (c <=? 57))%N then Some (Z.of_N c - 48)%Z
  else if ((97 <=? c) && (c <=? 102))%N then Some (Z.of_N c - 87)%Z
  else if ((65 <=? c) && (c <=? 70))%N then Some (Z.of_N c - 55)%Z
  else None.

Section Theme.

(** [int(s, 16)] on the texts that are not one or two ASCII hexadecimal
    digits: CPython also takes a sign, white space around the digits, the
    prefix [0x], an underscore between digits and the other decimal digits
    of Unicode.  [None] is [ValueError]. *)
Variable int_lenient : pystr → option Z.

(** [int(s, 16)] on a slice of at most two characters; the empty text is a
    [ValueError]. *)
Definition int16 (s : pystr) : option Z :=
  match s with
  | [] => None
  | [a] =>
      match hex_digit a with
      | Some x => Some x
      | None => int_lenient s
      end
  | [a; b] =>
      match hex_digit a, hex_digit b with
      | Some x, Some y => Some (16 * x + y)%Z
      | _, _ => int_lenient s
      end
  | _ => int_lenient s
  end.

(** [hex_to_rgb] (lines 168-170); [None] when one of the three [int] calls
    raises. *)
Definition hex_to_rgb (hex_color : pystr) : option (Z * Z * Z) :=
  let hex_color := lstrip_hash hex_color in
  match int16 (take 2 hex_color),
        int16 (take 2 (drop 2 hex_color)),
        int16 (take 2 (drop 4 hex_color)) with
  | Some r, Some g, Some b => Some (r, g, b)
  | _, _, _ => None
  end.

(** [RGBColor(r, g, b)] of python-pptx raises [ValueError] unless the three
    values are between 0 and 255. *)
Definition RGBColor_new (r g b : Z) : option RGBColor :=
  if ((0 <=? r) && (r <=? 255) && (0 <=? g) && (g <=? 255)
      && (0 <=? b) && (b <=? 255))%Z
  then Some (rgb r g b) else None.

(** Lines 174-178: the colour of the theme, navy when anything raises. *)
Definition theme_colour (theme_color : pystr) : RGBColor :=
  match hex_to_rgb theme_color with
  | Some (r, g, b) =>
      match RGBColor_new r g b with
      | Some colour => colour
      | None => rgb 0 51 102
      end
  | None => rgb 0 51 102
  end.

(** [create_ppt_file(slide_data, include_images, theme_color)] as the
    callers see it. *)
Definition create_ppt_file_themed (env : Env) (slide_data : pystr)
    (include_images : bool) (theme_color : pystr) : M (option string) :=
  create_ppt_file env (theme_colour theme_color) slide_data include_images.

End Theme.

(** The components of a colour are bytes. *)
Definition valid_rgb (c : RGBColor) : Prop :=
  match c with
  | rgb r g b => (0 ≤ r ≤ 255 ∧ 0 ≤ g ≤ 255 ∧ 0 ≤ b ≤ 255)%Z
  end.

(** ** The content generator (lines 21-111)

    The module keeps one Groq client; [client] tells whether it is there.
    [chat_log] holds the user prompts sent to the API so far. *)

Record Generator := mkGenerator {
  client : bool;
  chat_log : list pystr
}.

(** Answer of [client.chat.completions.create]: the content of the first
    choice, which may be [None], or whatever raises inside the [try], with
    its [str(e)]. *)
Inductive chat_reply :=
| ChatContent (reply_content : option pystr)
| ChatException (message : pystr).

(** What the generator does not decide: the API key of the process
    environment, whether [Groq(api_key=...)] returns or raises, and the
    answers of the API (indexed by the number of calls made before). *)
Record GroqEnv := mkGroqEnv {
  groq_api_key : option pystr;
  groq_client_ok : bool;
  chat_create : nat → pystr → chat_reply
}.

(** Python's [needle in s] on strings. *)
Fixpoint starts_with (needle s : pystr) : bool :=
  match needle, s with
  | [], _ => true
  | _ :: _, [] => false
  | n :: needle', c :: s' => (n =? c)%N && starts_with needle' s'
  end.

Fixpoint contains (needle s : pystr) : bool :=
  starts_with needle s
  || match s with
     | [] => false
     | _ :: s' => contains needle s'
     end.

(** Truth value of an optional string: [None] and the empty string are
    false. *)
Definition truthy_opt (s : option pystr) : bool := truthy (default [] s).

Definition NEWLINE : N := 10%N.

Definition not_initialized : pystr :=
  lit "Error: Groq Client not initialized. Check your .env file for GROQ_API_KEY.".

(** [f"Create a presentation about: {topic}"] *)
Definition topic_prompt (topic : pystr) : pystr :=
  lit "Create a presentation about: " ++ topic.

(** The f-string of lines 92-96, with its line breaks and indentation. *)
Definition refine_prompt (current_content feedback : pystr) : pystr :=
  NEWLINE :: lit "        Current Content: " ++ current_content
  ++ NEWLINE :: lit "        User Feedback: " ++ feedback
  ++ NEWLINE
  :: lit "        Refine the content based on the feedback. Return the full updated JSON."
  ++ NEWLINE :: lit "        ".

Section Generator.

Variable genv : GroqEnv.

(** [initialize_client] (lines 27-41) *)
Definition initialize_client (g : Generator) : bool * Generator :=
  if truthy_opt (groq_api_key genv) then
    if groq_client_ok genv then (true, mkGenerator true (chat_log g))
    else (false, g)
  else (false, g).

(** [generate_slide_content] (lines 49-111) *)
Definition generate_slide_content (topic : pystr)
    (feedback current_content : option pystr) (g : Generator)
  : option pystr * Generator :=
  let '(ready, g) := if client g then (true, g) else initialize_client g in
  if negb ready then (Some not_initialized, g)
  else
    let user_prompt :=
      if truthy_opt feedback && truthy_opt current_content
      then refine_prompt (default [] current_content) (default [] feedback)
      else topic_prompt topic in
    let g' := mkGenerator (client g) (chat_log g ++ [user_prompt]) in
    match chat_create genv (length (chat_log g)) user_prompt with
    | ChatContent reply_content => (reply_content, g')
    | ChatException message => (Some (lit "Error: " ++ message), g')
    end.

End Generator.

(** ** The chat page ([app.py]) *)

Inductive Role := assistant | user.

(** An entry of [st.session_state.messages]. *)
Record Message := mkMessage {
  role : Role;
  message_content : pystr;
  is_json : bool
}.

(** What the page shows inside a chat message. *)
Inductive Widget :=
| StWrite (shown_text : pystr)
| StJson (shown_json : pystr)
| StError (shown_error : option pystr)
| StSuccess (shown_text : pystr)
| StDownload (file_name : string) (file_data : FileContent).

(** The session state, the generator of the [logic] module, the world of
    [create_ppt_file], and what was shown, in order. *)
Record App := mkApp {
  messages : list Message;
  ppt_structure : option pystr;
  generator : Generator;
  world : State;
  shown : list (Role * Widget)
}.

(** Lines 32-35. *)
Definition initial_messages : list Message :=
  [mkMessage assistant
     (lit "Hello! What topic would you like a presentation on?") false].

Definition confirm_words : list pystr :=
  [lit "yes"; lit "y"; lit "looks good"; lit "ok"].

Definition follow_up_draft : pystr :=
  lit "Type 'Yes' to generate the file, or type feedback to change it.".

Definition follow_up_update : pystr :=
  lit "How is this? Type 'Yes' to generate.".

(** [f"Generating images and building PowerPoint with theme {theme_color}... ⏳"] *)
Definition building_notice (theme_color : pystr) : pystr :=
  lit "Generating images and building PowerPoint with theme " ++ theme_color
  ++ lit "... " ++ [9203%N].

Section Page.

Variable env : Env.
Variable genv : GroqEnv.
Variable int_lenient : pystr → option Z.

(** [prompt.lower()], by the case tables of Unicode. *)
Variable str_lower : pystr → pystr.

Definition show (r : Role) (w : Widget) (a : App) : App :=
  mkApp (messages a) (ppt_structure a) (generator a) (world a)
    (shown a ++ [(r, w)]).

Definition append_message (m : Message) (a : App) : App :=
  mkApp (messages a ++ [m]) (ppt_structure a) (generator a) (world a) (shown a).

Definition set_structure (s : option pystr) (a : App) : App :=
  mkApp (messages a) s (generator a) (world a) (shown a).

Definition set_generator (g : Generator) (a : App) : App :=
  mkApp (messages a) (ppt_structure a) g (world a) (shown a).

Definition set_world (w : State) (a : App) : App :=
  mkApp (messages a) (ppt_structure a) (generator a) w (shown a).

(** Lines 39-44: the history is shown again on every run. *)
Definition display_history (a : App) : App :=
  foldl (λ a m,
           show (role m)
             (if is_json m then StJson (message_content m)
              else StWrite (message_content m)) a)
    a (messages a).

(** Lines 58-73: no draft yet, the prompt is the topic. *)
Definition initial_generation (prompt : pystr) (a : App) : App :=
  let '(response, g) :=
    generate_slide_content genv prompt None None (generator a) in
  let a := set_generator g a in
  if truthy_opt response && contains (lit "Error:") (take 10 (default [] response))
  then show assistant (StError response) a
  else if truthy_opt response then
    let response := default [] response in
    let a := set_structure (Some response) a in
    let a := show assistant (StWrite (lit "Here is the draft plan:")) a in
    let a := show assistant (StJson response) a in
    let a := append_message (mkMessage assistant response true) a in
    let a := show assistant (StWrite follow_up_draft) a in
    append_message (mkMessage assistant follow_up_draft false) a
  else show assistant (StError (Some (lit "Unknown error. Please check logs."))) a.

(** Lines 78-97: the user accepts the draft and the deck is built. *)
Definition build_file (theme_color : pystr) (draft : pystr) (a : App)
  : result unit * App :=
  let a := show assistant (StWrite (building_notice theme_color)) a in
  match create_ppt_file_themed int_lenient env draft true theme_color (world a) with
  | (Raise e, w) => (Raise e, set_world w a)
  | (Ok filename, w) =>
      let a := set_world w a in
      match filename with
      | Some name =>
          if bool_decide (name = ""%string)
          then (Ok tt, show assistant
                         (StError (Some (lit "Failed to create PPT file."))) a)
          else
            let a := show assistant (StSuccess (lit "Presentation Ready!")) a in
            match files w !! name with
            | Some file_data =>
                let a := show assistant (StDownload name file_data) a in
                let a := set_structure None a in
                (Ok tt,
                 append_message
                   (mkMessage assistant
                      (lit "Great! What should we create next?") false) a)
            | None => (Raise FileNotFoundError, a)
            end
      | None =>
          (Ok tt, show assistant
                    (StError (Some (lit "Failed to create PPT file."))) a)
      end
  end.

(** Lines 100-113: any other prompt is feedback on the draft. *)
Definition refine (prompt : pystr) (draft : pystr) (a : App) : App :=
  let a :=
    show assistant
      (StWrite (lit "Refining content based on your feedback...")) a in
  let '(response, g) :=
    generate_slide_content genv prompt (Some prompt) (Some draft) (generator a) in
  let a := set_generator g a in
  if truthy_opt response && negb (contains (lit "Error:") (default [] response))
  then
    let response := default [] response in
    let a := set_structure (Some response) a in
    let a := show assistant (StWrite (lit "Updated Draft:")) a in
    let a := show assistant (StJson response) a in
    let a := append_message (mkMessage assistant response true) a in
    let a := show assistant (StWrite follow_up_update) a in
    append_message (mkMessage assistant follow_up_update false) a
  else show assistant (StError response) a.

(** Lines 48-113: one prompt of the user. *)
Definition handle_prompt (theme_color prompt : pystr) (a : App)
  : result unit * App :=
  let a := append_message (mkMessage user prompt false) a in
  let a := show user (StWrite prompt) a in
  match ppt_structure a with
  | None => (Ok tt, initial_generation prompt a)
  | Some draft =>
      if bool_decide (str_lower prompt ∈ confirm_words)
      then build_file theme_color draft a
      else (Ok tt, refine prompt draft a)
  end.

(** One run of the script: the history, then the prompt if there is one. *)
Definition script_run (theme_color : pystr) (prompt : option pystr) (a : App)
  : result unit * App :=
  let a := display_history a in
  if truthy_opt prompt then handle_prompt theme_color (default [] prompt) a
  else (Ok tt, a).

End Page.

(** A draft the page may keep: not empty, and without [Error:] in its first
    ten characters. *)
Definition acceptable_draft (draft : option pystr) : Prop :=
  ∀ s, draft = Some s →
       truthy s = true ∧ contains (lit "Error:") (take 10 s) = false.

(** The generator can reach the API: it has a client, or can make one. *)
Definition can_connect (genv : GroqEnv) (g : Generator) : bool :=
  client g || (truthy_opt (groq_api_key genv) && groq_client_ok genv).

(** The user prompt [generate_slide_content] sends. *)
Definition sent_prompt (topic : pystr) (feedback current_content : option pystr)
  : pystr :=
  if truthy_opt feedback && truthy_opt current_content
  then refine_prompt (default [] current_content) (default [] feedback)
  else topic_prompt topic.

(** The generator fails whatever it is asked: no client can be made, or the
    next call of the API raises. *)
Definition generation_down (genv : GroqEnv) (g : Generator) : Prop :=
  can_connect genv g = false ∨
  ∀ user_prompt, ∃ message,
    chat_create genv (length (chat_log g)) user_prompt = ChatException message.

(** How the history shows a message. *)
Definition render_message (m : Message) : Role * Widget :=
  (role m,
   if is_json m then StJson (message_content m)
   else StWrite (message_content m)).

(** ** Inputs of the worked runs *)

(** A JSON text from its pieces between double quotes. *)
Fixpoint json_text (pieces : list string) : pystr :=
  match pieces with
  | [] => []
  | [piece] => lit piece
  | piece :: rest => lit piece ++ 34%N :: json_text rest
  end.

Definition navy : RGBColor := rgb 0 51 102.

Definition fresh_state : State := mkState [] ∅ [] 0.

(** A slide that asks for an image, with a bullet to strip and a blank one. *)
Definition vertices_slide : SlideInfo :=
  mkSlideInfo (Some (lit "Vertices"))
    (Some [lit " A vertex is a point. "; lit ""; lit "Edges join two vertices."])
    (Some (lit "network")).


Definition five_items : list pystr :=
  [lit "Vertices"; lit "Edges"; lit "Paths"; lit "Cycles"; lit "Trees"].

(** Five entries in the table of contents, two content slides, and a
    conclusion whose points are blank. *)
Definition graph_tree : ContentTree :=
  mkContentTree
    (Some (lit "Intro to Graph Theory"))
    (Some five_items)
    (Some [vertices_slide; mkSlideInfo None (Some [lit "  "]) None])
    (Some (mkConclusionData None (Some [lit "  "; lit ""]))).

Definition graph_text : pystr :=
  json_text
    [ "{"; "presentation_title"; ": "; "Intro to Graph Theory"; ", ";
      "table_of_contents"; ": ["; "Vertices"; ", "; "Edges"; ", "; "Paths";
      ", "; "Cycles"; ", "; "Trees"; "], ";
      "slides"; ": [{"; "title"; ": "; "Vertices"; ", "; "content"; ": [";
      " A vertex is a point. "; ", "; ""; ", "; "Edges join two vertices.";
      "], "; "image_description"; ": "; "network"; "}, {"; "content"; ": [";
      "  "; "]}], ";
      "conclusion"; ": {"; "content"; ": ["; "  "; ", "; ""; "]}}" ].

(** A text cut short, which is not JSON. *)
Definition cut_text : pystr := json_text ["{"; "slides"; ": ["].

(** One content slide whose title is the JSON escape of U+FFFE, which
    [json.loads] decodes to that code point. *)
Definition marked_tree : ContentTree :=
  mkContentTree None None (Some [mkSlideInfo (Some [65534%N]) None None]) None.

Definition marked_text : pystr :=
  json_text ["{"; "slides"; ": [{"; "title"; ": "; "\ufffe"; "}]}"].

(** An entry that asks for an image and whose only bullet is U+FFFE. *)
Definition marked_bullet_slide : SlideInfo :=
  mkSlideInfo (Some (lit "Vertices")) (Some [[65534%N]]) (Some (lit "network")).

(** A table of contents whose second item is U+FFFF. *)
Definition marked_toc_tree : ContentTree :=
  mkContentTree None (Some [lit "Vertices"; [65535%N]]) None None.

Definition marked_toc_text : pystr :=
  json_text ["{"; "table_of_contents"; ": ["; "Vertices"; ", "; "\uffff";
             "]}"].

(** A decoder that knows the texts of the runs below: the texts of
    [graph_tree], [marked_tree] and [marked_toc_tree], and an array; it
    rejects the rest, as [json.loads] rejects [cut_text]. *)
Definition decode (slide_data : pystr) : option json_doc :=
  if bool_decide (slide_data = graph_text) then Some (JObject graph_tree)
  else if bool_decide (slide_data = marked_text) then Some (JObject marked_tree)
  else if bool_decide (slide_data = marked_toc_text)
  then Some (JObject marked_toc_tree)
  else if bool_decide (slide_data = lit "[1, 2]") then Some JNotObject
  else None.

(** The texts lxml takes from python-pptx, which escapes the control
    characters itself: those without a surrogate, U+FFFE or U+FFFF. *)
Definition xml_char (c : N) : bool :=
  negb ((55296 <=? c) && (c <=? 57343) || (c =? 65534) || (c =? 65535))%N.

Definition xml_text (value : pystr) : bool := forallb xml_char value.

Definition photo_url : pystr := lit "https://images.pexels.com/photos/1/a.jpeg".

(** The world of the runs: the search finds one photo, every download
    answers with [reply], python-pptx takes the downloaded bytes as an
    image when [accepts] is true, and it takes the texts of [xml_text]. *)
Definition run_env (reply : get_reply) (accepts : bool) : Env :=
  mkEnv decode (Some (lit "key"))
    (λ _ _, SearchResponse 200 [photo_url])
    (λ _ _, reply)
    (λ _, accepts)
    xml_text
    "3fa9c1d2e4b7".

(** An image of one pixel: the 35 bytes of a GIF file (header, screen
    descriptor, a colour table of two entries, image descriptor, image data
    and trailer). *)
Definition tiny_gif : bytes :=
  [ Byte.x47; Byte.x49; Byte.x46; Byte.x38; Byte.x39; Byte.x61;
    Byte.x01; Byte.x00; Byte.x01; Byte.x00; Byte.x80; Byte.x00; Byte.x00;
    Byte.x00; Byte.x00; Byte.x00; Byte.xff; Byte.xff; Byte.xff;
    Byte.x2c; Byte.x00; Byte.x00; Byte.x00; Byte.x00;
    Byte.x01; Byte.x00; Byte.x01; Byte.x00; Byte.x00;
    Byte.x02; Byte.x02; Byte.x44; Byte.x01; Byte.x00;
    Byte.x3b ].
(** The bytes of the text [<html>]. *)
Definition html : bytes :=
  [Byte.x3c; Byte.x68; Byte.x74; Byte.x6d; Byte.x6c; Byte.x3e].

(** The downloads fail twice, then succeed. *)
Definition flaky_env : Env :=
  mkEnv decode (Some (lit "key"))
    (λ _ _, SearchResponse 200 [photo_url])
    (λ n _, if n <? 2 then RequestException else Response 200 tiny_gif)
    (λ _, true)
    xml_text
    "3fa9c1d2e4b7".


(** [int] outside plain hexadecimal digits, for runs that do not ask for it:
    every such text is refused. *)
Definition strict_int (s : pystr) : option Z := None.

(** [str.lower] on ASCII letters. *)
Definition ascii_lower (s : pystr) : pystr :=
  (λ c, if ((65 <=? c) && (c <=? 90))%N then (c + 32)%N else c) <$> s.

(** A generator whose API answers every call with [reply]. *)
Definition run_genv (reply : chat_reply) : GroqEnv :=
  mkGroqEnv (Some (lit "gsk")) true (λ _ _, reply).

(** The page before the first prompt, and with the draft of [graph_tree]. *)
Definition fresh_app : App :=
  mkApp initial_messages None (mkGenerator false []) fresh_state [].

Definition drafted_app : App :=
  mkApp initial_messages (Some graph_text) (mkGenerator true []) fresh_state [].

(** * Properties *)

(** ** Arithmetic and lists *)

Lemma Qceiling_half (z : Z) : Qceiling (inject_Z z / 2) = ((z + 1) / 2)%Z.
Proof.
  unfold Qceiling, Qfloor. cbn. rewrite Z.mul_1_r.
  change (Z.pos (1 * 2)) with 2%Z.
  pose proof (Z.div_mod (- z) 2 ltac:(lia)).
  pose proof (Z.mod_pos_bound (- z) 2 ltac:(lia)).
  pose proof (Z.div_mod (z + 1) 2 ltac:(lia)).
  pose proof (Z.mod_pos_bound (z + 1) 2 ltac:(lia)).
  lia.
Qed.

(** [math.ceil(n / 2)] is the integer quotient of [n + 1] by 2. *)
Lemma ceil_half_div (n : nat) : ceil_half n = (n + 1) / 2.
Proof.
  unfold ceil_half. rewrite Qceiling_half.
  apply Nat2Z.inj. rewrite Z2Nat.id by (apply Z.div_pos; lia).
  rewrite Nat2Z.inj_div, Nat2Z.inj_add. reflexivity.
Qed.


(** It is the least [m] with [n ≤ 2 * m]. *)
Lemma ceil_half_least (n : nat) :
  n ≤ 2 * ceil_half n ∧ ∀ m, n ≤ 2 * m → ceil_half n ≤ m.
Proof.
  rewrite ceil_half_div.
  pose proof (Nat.div_mod_eq (n + 1) 2).
  pose proof (Nat.mod_upper_bound (n + 1) 2 ltac:(lia)).
  split; [lia | intros m Hm; lia].
Qed.


Lemma update_last_app {A} (f : A → A) (l : list A) (x : A) :
  update_last f (l ++ [x]) = l ++ [f x].
Proof.
  induction l as [|y l IH]; [reflexivity|].
  cbn [app update_last]. rewrite IH.
  destruct (l ++ [x]) eqn:E; [|reflexivity].
  destruct l; discriminate.
Qed.

(** ** The texts of the paragraphs *)

Lemma toc_paragraph_texts sizing align (items : list pystr) :
  text <$> (toc_paragraph sizing align <$> items) = bulleted <$> items.
Proof. induction items as [|x items IH]; [reflexivity|]. cbn. by rewrite IH. Qed.

Lemma content_paragraph_texts sizing (bullets : list pystr) :
  text <$> (content_paragraph sizing <$> bullets) = bulleted <$> bullets.
Proof. induction bullets as [|b bs IH]; [reflexivity|]. cbn. by rewrite IH. Qed.

Lemma conclusion_paragraph_texts sizing (points : list pystr) :
  text <$> (conclusion_paragraph sizing <$> points) = bulleted <$> points.
Proof. induction points as [|b bs IH]; [reflexivity|]. cbn. by rewrite IH. Qed.

(** ** Running the primitives *)

Section Runs.

Variable env : Env.

Lemma bind_run {A B} (m : M A) (k : A → M B) st a st' :
  m st = (Ok a, st') → bind m k st = k a st'.
Proof. intros H. unfold bind. rewrite H. reflexivity. Qed.

Lemma add_slide_run p f l n :
  add_slide (mkState p f l n) = (Ok tt, mkState (p ++ [blank_slide]) f l n).
Proof. reflexivity. Qed.

Lemma add_shape_run sh p s f l n :
  add_shape sh (mkState (p ++ [s]) f l n)
  = (Ok tt, mkState (p ++ [slide_add_shape sh s]) f l n).
Proof.
  unfold add_shape, modify, set_prs. cbn [prs files log requests].
  rewrite update_last_app. reflexivity.
Qed.

Lemma fill_background_run c p s f l n :
  fill_background c (mkState (p ++ [s]) f l n)
  = (Ok tt, mkState (p ++ [slide_set_background c s]) f l n).
Proof.
  unfold fill_background, modify, set_prs. cbn [prs files log requests].
  rewrite update_last_app. reflexivity.
Qed.

Lemma bind_raise {A B} (m : M A) (k : A → M B) st e st' :
  m st = (Raise e, st') → bind m k st = (Raise e, st').
Proof. intros H. unfold bind. rewrite H. reflexivity. Qed.

Lemma texts_ok_app values1 values2 :
  texts_ok env (values1 ++ values2)
  = texts_ok env values1 && texts_ok env values2.
Proof. apply forallb_app. Qed.

Lemma texts_ok_Forall values :
  texts_ok env values = true ↔ Forall (λ value, writable env value = true) values.
Proof.
  unfold texts_ok. rewrite forallb_forall, Forall_forall.
  split; intros H value Hin; apply H, list_elem_of_In, Hin.
Qed.

(** A text box whose texts are all taken is one more shape on the slide. *)
Lemma add_textbox_run box p s f l n :
  texts_ok env (shape_texts box) = true →
  add_textbox env box (mkState (p ++ [s]) f l n)
  = (Ok tt, mkState (p ++ [slide_add_shape box s]) f l n).
Proof. intros H. unfold add_textbox. rewrite H. apply add_shape_run. Qed.

(** A text that is refused ends the run of the box with [ValueError]. *)
Lemma add_textbox_refused box st :
  texts_ok env (shape_texts box) = false →
  add_textbox env box st = (Raise ValueError, st).
Proof. intros H. unfold add_textbox. rewrite H. reflexivity. Qed.

(** A text box in the middle of a run: the run goes on with the box on the
    slide, or stops with [ValueError]. *)
Lemma bind_textbox {B} x y w h word_wrap anchor paragraphs (k : unit → M B)
    p s f l n :
  bind (add_textbox env (TextBox x y w h word_wrap anchor paragraphs)) k
    (mkState (p ++ [s]) f l n)
  = if texts_ok env (text <$> paragraphs)
    then k tt (mkState
                 (p ++ [slide_add_shape
                          (TextBox x y w h word_wrap anchor paragraphs) s])
                 f l n)
    else (Raise ValueError, mkState (p ++ [s]) f l n).
Proof.
  change (text <$> paragraphs)
    with (shape_texts (TextBox x y w h word_wrap anchor paragraphs)).
  destruct (texts_ok env _) eqn:E.
  - apply bind_run, add_textbox_run, E.
  - apply bind_raise, add_textbox_refused, E.
Qed.

Lemma texts_ok_single value : texts_ok env [value] = writable env value.
Proof. cbn. apply andb_true_r. Qed.

Lemma texts_ok_cons value values :
  texts_ok env (value :: values) = writable env value && texts_ok env values.
Proof. reflexivity. Qed.

(** The empty paragraph a text frame starts with is not written. *)
Lemma texts_ok_after_empty (paragraphs : list Paragraph) :
  texts_ok env (text <$> (empty_paragraph :: paragraphs))
  = texts_ok env (text <$> paragraphs).
Proof. reflexivity. Qed.

Lemma for_each_add_textbox_run shs p s f l n :
  texts_ok env (shs ≫= shape_texts) = true →
  for_each (add_textbox env) shs (mkState (p ++ [s]) f l n)
  = (Ok tt, mkState (p ++ [mkSlide (background s) (shapes s ++ shs)]) f l n).
Proof.
  revert s. induction shs as [|sh shs IH]; intros s Hok.
  - cbn [for_each]. unfold ret. rewrite app_nil_r. destruct s; reflexivity.
  - cbn [mbind list_bind] in Hok. rewrite texts_ok_app in Hok.
    apply andb_true_iff in Hok as [Hsh Hshs].
    cbn [for_each].
    rewrite (bind_run _ _ _ _ _ (add_textbox_run sh p s f l n Hsh)).
    rewrite IH by exact Hshs. unfold slide_add_shape. cbn [background shapes].
    rewrite <- app_assoc. reflexivity.
Qed.

Lemma for_each_add_textbox_refused shs p s f l n :
  texts_ok env (shs ≫= shape_texts) = false →
  ∃ p', for_each (add_textbox env) shs (mkState (p ++ [s]) f l n)
        = (Raise ValueError, mkState p' f l n).
Proof.
  revert s. induction shs as [|sh shs IH]; intros s Hno; [discriminate|].
  cbn [mbind list_bind] in Hno. rewrite texts_ok_app in Hno.
  cbn [for_each]. destruct (texts_ok env (shape_texts sh)) eqn:Hsh.
  - rewrite (bind_run _ _ _ _ _ (add_textbox_run sh p s f l n Hsh)).
    apply IH, Hno.
  - eexists. apply bind_raise, add_textbox_refused, Hsh.
Qed.

Lemma net_only_ret {A} (a : A) : net_only (ret a).
Proof.
  intros l n. exists a, [], 0. intros p f.
  unfold ret. rewrite app_nil_r, Nat.add_0_r. reflexivity.
Qed.

Lemma net_only_bind {A B} (m : M A) (k : A → M B) :
  net_only m → (∀ a, net_only (k a)) → net_only (bind m k).
Proof.
  intros Hm Hk l n.
  destruct (Hm l n) as (a & evs1 & k1 & H1).
  destruct (Hk a (l ++ evs1) (n + k1)) as (b & evs2 & k2 & H2).
  exists b, (evs1 ++ evs2), (k1 + k2). intros p f.
  rewrite (bind_run _ _ _ _ _ (H1 p f)), H2.
  rewrite app_assoc, Nat.add_assoc. reflexivity.
Qed.

Lemma net_only_search_get q : net_only (search_get env q).
Proof.
  intros l n. exists (pexels_search env n q), [EvSearch q], 1. intros p f.
  unfold search_get, count_request. cbn [prs files log requests].
  rewrite Nat.add_1_r. reflexivity.
Qed.

Lemma net_only_image_get url : net_only (image_get env url).
Proof.
  intros l n. exists (requests_get env n url), [EvGet url], 1. intros p f.
  unfold image_get, count_request. cbn [prs files log requests].
  rewrite Nat.add_1_r. reflexivity.
Qed.

Lemma net_only_sleep s : net_only (sleep s).
Proof.
  intros l n. exists tt, [EvSleep s], 0. intros p f.
  unfold sleep, modify, log_event. cbn [prs files log requests].
  rewrite Nat.add_0_r. reflexivity.
Qed.

Lemma net_only_fetch_attempts url attempts :
  net_only (fetch_attempts env url attempts).
Proof.
  induction attempts as [|attempt rest IH]; cbn [fetch_attempts].
  - apply net_only_ret.
  - apply net_only_bind; [apply net_only_image_get|].
    intros [status_code body|].
    + destruct (status_code =? 200)%Z; [apply net_only_ret|].
      apply net_only_bind; [apply net_only_sleep | intros _; exact IH].
    + apply net_only_bind; [apply net_only_sleep | intros _; exact IH].
Qed.

Lemma net_only_generate_image prompt : net_only (generate_image env prompt).
Proof.
  unfold generate_image.
  destruct (negb _); [apply net_only_ret|].
  apply net_only_bind; [apply net_only_search_get|].
  intros [status_code photos|]; [|apply net_only_ret].
  destruct (status_code =? 200)%Z; [|apply net_only_ret].
  destruct photos; apply net_only_ret.
Qed.

Lemma net_only_slide_image include_images slide_info :
  net_only (slide_image env include_images slide_info).
Proof.
  unfold slide_image.
  destruct (include_images && _); [|apply net_only_ret].
  apply net_only_bind; [apply net_only_generate_image|].
  intros [url|]; [|apply net_only_ret].
  destruct (truthy url); [apply net_only_fetch_attempts | apply net_only_ret].
Qed.

End Runs.

(** ** Running the slide builder *)

Section Pipeline.

Variable env : Env.
Variable NAVY_BLUE : RGBColor.

Lemma texts_ok_added par :
  texts_ok env (text <$> [empty_paragraph; par]) = writable env (text par).
Proof. cbn. apply andb_true_r. Qed.

Lemma texts_ok_first par :
  texts_ok env (text <$> [par]) = writable env (text par).
Proof. cbn. apply andb_true_r. Qed.

(** The boxes of the table of contents write the items, each after its
    glyph, and nothing else. *)
Lemma toc_boxes_texts toc_items :
  texts_ok env (toc_boxes toc_items ≫= shape_texts)
  = texts_ok env (bulleted <$> toc_items).
Proof.
  unfold toc_boxes. destruct (4 <? length toc_items).
  - cbn [mbind list_bind]. unfold shape_texts. cbn [paragraphs_of].
    rewrite !texts_ok_app, !texts_ok_after_empty, !toc_paragraph_texts.
    cbn [texts_ok forallb]. rewrite andb_true_r.
    rewrite <- texts_ok_app, <- fmap_app, take_drop. reflexivity.
  - cbn [mbind list_bind]. unfold shape_texts. cbn [paragraphs_of].
    rewrite !texts_ok_app, !texts_ok_after_empty, !toc_paragraph_texts.
    cbn [texts_ok forallb]. apply andb_true_r.
Qed.

Lemma files_after_image_other i img_data (f : gmap string FileContent) name :
  name ≠ temp_filename i →
  files_after_image env i img_data f !! name = f !! name.
Proof.
  intros Hne. destruct img_data as [data|]; [|reflexivity].
  cbn [files_after_image]. destruct (add_picture_ok env data).
  - rewrite lookup_delete_ne, lookup_insert_ne; done.
  - rewrite lookup_insert_ne; done.
Qed.

(** Placing the image adds the picture and removes the staged file when
    python-pptx takes the bytes; when it raises, the handler is reached
    before [os.remove] and the staged file stays. *)
Lemma place_image_run i img_data p s f l n :
  place_image env NAVY_BLUE i img_data (mkState (p ++ [s]) f l n)
  = (Ok tt,
     mkState (p ++ [mkSlide (background s)
                      (shapes s ++ picture_shapes env NAVY_BLUE img_data)])
       (files_after_image env i img_data f) l n).
Proof.
  destruct img_data as [data|]; cbn [place_image picture_shapes files_after_image].
  - unfold try_except, bind, write_file, modify, set_files, add_picture, os_remove.
    cbn [prs files log requests].
    rewrite lookup_insert_eq.
    destruct (add_picture_ok env data).
    + rewrite add_shape_run. cbn [prs files log requests].
      rewrite lookup_insert_eq. reflexivity.
    + unfold ret. rewrite app_nil_r. destruct s; reflexivity.
  - unfold ret. rewrite app_nil_r. destruct s; reflexivity.
Qed.

(** What [slide_image] yields does not depend on the slides or the files,
    and without [include_images] it asks nothing of the network. *)
Lemma slide_image_run include_images slide_info l n :
  ∃ img_data evs k,
    (∀ p f, slide_image env include_images slide_info (mkState p f l n)
            = (Ok img_data, mkState p f (l ++ evs) (n + k))) ∧
    (include_images = false → img_data = None ∧ evs = [] ∧ k = 0).
Proof.
  destruct (net_only_slide_image env include_images slide_info l n)
    as (img_data & evs & k & Himg).
  exists img_data, evs, k. split; [exact Himg|].
  intros ->. specialize (Himg [] ∅). cbn in Himg. unfold ret in Himg.
  injection Himg as <- Hl Hn.
  split; [reflexivity|]. split.
  - apply (app_inv_head l). rewrite app_nil_r. symmetry. exact Hl.
  - lia.
Qed.

(** One turn of the loop over the content slides, when its texts are
    taken: the image is decided by [slide_image] alone, and the slide is
    appended to the deck. *)
Lemma content_slide_run include_images i slide_info f l n :
  texts_ok env (slide_texts slide_info) = true →
  ∃ img_data evs k,
    (∀ p f0, slide_image env include_images slide_info (mkState p f0 l n)
             = (Ok img_data, mkState p f0 (l ++ evs) (n + k))) ∧
    (include_images = false → img_data = None ∧ evs = [] ∧ k = 0) ∧
    (∀ p, content_slide env NAVY_BLUE include_images i slide_info
            (mkState p f l n)
          = (Ok tt,
             mkState (p ++ [content_slide_built env NAVY_BLUE slide_info img_data])
               (files_after_image env i img_data f) (l ++ evs) (n + k))).
Proof.
  intros Hok. unfold slide_texts in Hok. rewrite texts_ok_cons in Hok.
  apply andb_true_iff in Hok as [Htitle Hbullets].
  destruct (slide_image_run include_images slide_info l n)
    as (img_data & evs & k & Himg & Hoff).
  exists img_data, evs, k. split; [exact Himg|]. split; [exact Hoff|].
  intros p. unfold content_slide. cbv zeta.
  rewrite (bind_run _ _ _ _ _ (add_slide_run p f l n)).
  rewrite bind_textbox, texts_ok_first. cbn [text]. rewrite Htitle.
  rewrite (bind_run _ _ _ _ _ (add_shape_run _ p _ f l n)).
  rewrite (bind_run _ _ _ _ _ (Himg _ f)).
  rewrite bind_textbox, texts_ok_after_empty, content_paragraph_texts, Hbullets.
  rewrite place_image_run. reflexivity.
Qed.

(** One turn of the loop when a text of the entry is refused: the heading
    stops the turn before the search, a bullet after the download and
    before the staged file is written. *)
Lemma content_slide_refused include_images i slide_info p f l n :
  texts_ok env (slide_texts slide_info) = false →
  ∃ st',
    content_slide env NAVY_BLUE include_images i slide_info (mkState p f l n)
    = (Raise ValueError, st') ∧
    files st' = f ∧
    (include_images = false → log st' = l ∧ requests st' = n).
Proof.
  intros Hno. unfold slide_texts in Hno. rewrite texts_ok_cons in Hno.
  unfold content_slide. cbv zeta.
  rewrite (bind_run _ _ _ _ _ (add_slide_run p f l n)).
  rewrite bind_textbox, texts_ok_first. cbn [text].
  destruct (writable env (default (lit "Slide") (title slide_info))).
  - cbn [andb] in Hno.
    destruct (slide_image_run include_images slide_info l n)
      as (img_data & evs & k & Himg & Hoff).
    rewrite (bind_run _ _ _ _ _ (add_shape_run _ p _ f l n)).
    rewrite (bind_run _ _ _ _ _ (Himg _ f)).
    rewrite bind_textbox, texts_ok_after_empty, content_paragraph_texts, Hno.
    eexists. split; [reflexivity|]. cbn [files log requests].
    split; [reflexivity|]. intros Hinc.
    destruct (Hoff Hinc) as (_ & -> & ->).
    rewrite app_nil_r, Nat.add_0_r. done.
  - eexists. split; [reflexivity|]. done.
Qed.

(** The loop appends one slide per entry, in the order of the entries. *)
Lemma content_loop_run include_images infos :
  texts_ok env (infos ≫= slide_texts) = true →
  ∀ i f l n, ∃ imgs f' evs k,
    length imgs = length infos ∧
    (include_images = false →
       imgs = replicate (length infos) None ∧ f' = f ∧ evs = [] ∧ k = 0) ∧
    (∀ P : option bytes → Prop,
       (∀ info st img st',
          slide_image env include_images info st = (Ok img, st') → P img) →
       Forall P imgs) ∧
    (∀ p, for_enumerate (content_slide env NAVY_BLUE include_images) i infos
            (mkState p f l n)
          = (Ok tt,
             mkState (p ++ content_slides_built env NAVY_BLUE infos imgs) f'
               (l ++ evs) (n + k))) ∧
    (∀ name, (∀ j, j < length infos → name ≠ temp_filename (i + j)) →
       f' !! name = f !! name).
Proof.
  induction infos as [|info infos IH]; intros Hok i f l n.
  - exists [], f, [], 0. split; [reflexivity|]. split; [done|].
    split; [intros P _; constructor|]. split; [|done].
    intros p. cbn [for_enumerate]. unfold ret, content_slides_built.
    cbn [zip_with]. rewrite !app_nil_r, Nat.add_0_r. reflexivity.
  - cbn [mbind list_bind] in Hok. rewrite texts_ok_app in Hok.
    apply andb_true_iff in Hok as [Hinfo Hinfos].
    destruct (content_slide_run include_images i info f l n Hinfo)
      as (img & evs1 & k1 & Himg & Hoff & Hrun).
    destruct (IH Hinfos (S i) (files_after_image env i img f) (l ++ evs1)
                (n + k1))
      as (imgs & f' & evs2 & k2 & Hlen & Hoff2 & Hall & Hloop & Hframe).
    exists (img :: imgs), f', (evs1 ++ evs2), (k1 + k2).
    split; [cbn [length]; congruence|]. split; [|split; [|split]].
    + intros Hinc. destruct (Hoff Hinc) as (-> & -> & ->).
      destruct (Hoff2 Hinc) as (-> & -> & -> & ->). done.
    + intros P HP. constructor; [|apply Hall, HP].
      eapply HP. apply (Himg [] ∅).
    + intros p. cbn [for_enumerate].
      rewrite (bind_run _ _ _ _ _ (Hrun p)), Hloop.
      unfold content_slides_built. cbn [zip_with].
      rewrite <- !app_assoc, Nat.add_assoc. reflexivity.
    + intros name Hname. rewrite Hframe.
      * apply files_after_image_other. specialize (Hname 0).
        rewrite Nat.add_0_r in Hname. apply Hname. cbn [length]. lia.
      * intros j Hj. replace (S i + j) with (i + S j) by lia.
        apply Hname. cbn [length]. lia.
Qed.

(** The loop stops with [ValueError] at the first entry with a text that is
    refused.  The entries before it were built, so their staged files may
    have come and gone; no other file has changed, and without
    [include_images] nothing but the slides has. *)
Lemma content_loop_refused include_images infos :
  texts_ok env (infos ≫= slide_texts) = false →
  ∀ i p f l n, ∃ st',
    for_enumerate (content_slide env NAVY_BLUE include_images) i infos
      (mkState p f l n)
    = (Raise ValueError, st') ∧
    (∀ name, (∀ j, j < length infos → name ≠ temp_filename (i + j)) →
       files st' !! name = f !! name) ∧
    (include_images = false →
       files st' = f ∧ log st' = l ∧ requests st' = n).
Proof.
  induction infos as [|info infos IH]; intros Hno i p f l n; [discriminate|].
  cbn [mbind list_bind] in Hno. rewrite texts_ok_app in Hno.
  cbn [for_enumerate].
  destruct (texts_ok env (slide_texts info)) eqn:Hinfo.
  - destruct (content_slide_run include_images i info f l n Hinfo)
      as (img & evs1 & k1 & _ & Hoff & Hrun).
    rewrite (bind_run _ _ _ _ _ (Hrun p)).
    destruct (IH Hno (S i) (p ++ [content_slide_built env NAVY_BLUE info img])
                (files_after_image env i img f) (l ++ evs1) (n + k1))
      as (st' & Hrest & Hfiles & Hoff2).
    exists st'. split; [exact Hrest|]. split.
    + intros name Hname. rewrite Hfiles.
      * apply files_after_image_other. specialize (Hname 0).
        rewrite Nat.add_0_r in Hname. apply Hname. cbn [length]. lia.
      * intros j Hj. replace (S i + j) with (i + S j) by lia.
        apply Hname. cbn [length]. lia.
    + intros Hinc. destruct (Hoff Hinc) as (-> & -> & ->).
      destruct (Hoff2 Hinc) as (-> & -> & ->).
      rewrite app_nil_r, Nat.add_0_r. done.
  - destruct (content_slide_refused include_images i info p f l n Hinfo)
      as (st' & Hrun & Hfiles & Hoff).
    exists st'. split; [apply bind_raise, Hrun|].
    split; [intros name _; by rewrite Hfiles|].
    intros Hinc. destruct (Hoff Hinc). done.
Qed.

(** The texts of a tree are taken when each group of them is. *)
Lemma deck_texts_ok data :
  texts_ok env (deck_texts data)
  = writable env (default (lit "Presentation") (presentation_title data))
    && (writable env (lit "Generated by AI Agent")
    && (writable env (lit "Table of Contents")
    && (texts_ok env (bulleted <$> default [] (table_of_contents data))
    && (texts_ok env (default [] (slides data) ≫= slide_texts)
    && (writable env
          (default (lit "Conclusion")
             (conclusion_title
                (default (mkConclusionData None None) (conclusion data))))
    && (texts_ok env
          (bulleted <$>
             default []
               (conclusion_content
                  (default (mkConclusionData None None) (conclusion data))))
    && writable env (lit "Thank You"))))))).
Proof.
  unfold deck_texts. cbv zeta.
  rewrite !texts_ok_app, !texts_ok_cons.
  change (texts_ok env []) with true.
  rewrite ?andb_true_r, <- ?andb_assoc. reflexivity.
Qed.

Lemma deck_texts_toc_ok data :
  texts_ok env (deck_texts data) = true →
  texts_ok env (bulleted <$> default [] (table_of_contents data)) = true.
Proof.
  rewrite deck_texts_ok. intros H.
  repeat (apply andb_true_iff in H as [? H]). assumption.
Qed.

(** The whole run on a decoded object whose texts are taken: the deck is
    the title slide, the table of contents, the content slides, the
    conclusion and the closing slide, and it is saved under the generated
    name.  The content slides, the files and the requests are the same
    whatever the table of contents is. *)
Lemma build_deck_run include_images data f l n :
  texts_ok env (deck_texts data) = true →
  ∃ imgs f' evs k,
    length imgs = length (default [] (slides data)) ∧
    (include_images = false →
       imgs = replicate (length (default [] (slides data))) None
       ∧ f' = f ∧ evs = [] ∧ k = 0) ∧
    (∀ P : option bytes → Prop,
       (∀ info st img st',
          slide_image env include_images info st = (Ok img, st') → P img) →
       Forall P imgs) ∧
    (∀ toc p,
       texts_ok env (bulleted <$> default [] toc) = true →
       build_deck env NAVY_BLUE (JObject (with_toc data toc)) include_images
         (mkState p f l n)
       = (Ok (Some (deck_filename env)),
          let deck :=
            deck_of NAVY_BLUE (with_toc data toc)
              (content_slides_built env NAVY_BLUE (default [] (slides data)) imgs) in
          mkState deck (<[deck_filename env := DeckFile deck]> f')
            (l ++ evs) (n + k))).
Proof.
  rewrite deck_texts_ok. intros Hok.
  apply andb_true_iff in Hok as [Htitle Hok].
  apply andb_true_iff in Hok as [Hsub Hok].
  apply andb_true_iff in Hok as [Htoc Hok].
  apply andb_true_iff in Hok as [_ Hok].
  apply andb_true_iff in Hok as [Hslides Hok].
  apply andb_true_iff in Hok as [Hctitle Hok].
  apply andb_true_iff in Hok as [Hpoints Hthanks].
  destruct (content_loop_run include_images (default [] (slides data)) Hslides
              0 f l n)
    as (imgs & f' & evs & k & Hlen & Hoff & Hall & Hloop & _).
  exists imgs, f', evs, k. split; [exact Hlen|]. split; [exact Hoff|].
  split; [exact Hall|].
  intros toc p Hitems. unfold build_deck. cbv zeta.
  assert (HP : Presentation (mkState p f l n) = (Ok tt, mkState [] f l n))
    by reflexivity.
  rewrite (bind_run _ _ _ _ _ HP).
  rewrite (bind_run _ _ _ _ _ (add_slide_run [] f l n)).
  rewrite (bind_run _ _ _ _ _ (add_shape_run _ [] _ f l n)).
  cbn [as_dict]. unfold bind at 1, ret at 1. cbv beta iota.
  cbn [presentation_title table_of_contents slides conclusion with_toc].
  rewrite bind_textbox, texts_ok_added. cbn [text]. rewrite Htitle.
  rewrite bind_textbox, texts_ok_added. cbn [text]. rewrite Hsub.
  rewrite (bind_run _ _ _ _ _ (add_slide_run _ f l n)).
  rewrite bind_textbox, texts_ok_added. cbn [text]. rewrite Htoc.
  rewrite (bind_run _ _ _ _ _ (add_shape_run _ _ _ f l n)).
  rewrite (bind_run _ _ _ _ _ (for_each_add_textbox_run env _ _ _ f l n
                                 (eq_trans (toc_boxes_texts _) Hitems))).
  rewrite (bind_run _ _ _ _ _ (Hloop _)).
  rewrite (bind_run _ _ _ _ _ (add_slide_run _ _ _ _)).
  rewrite bind_textbox, texts_ok_first. cbn [text]. rewrite Hctitle.
  rewrite (bind_run _ _ _ _ _ (add_shape_run _ _ _ _ _ _)).
  rewrite bind_textbox, texts_ok_after_empty, conclusion_paragraph_texts, Hpoints.
  rewrite (bind_run _ _ _ _ _ (add_slide_run _ _ _ _)).
  rewrite (bind_run _ _ _ _ _ (fill_background_run _ _ _ _ _ _)).
  rewrite bind_textbox, texts_ok_added. cbn [text]. rewrite Hthanks.
  unfold bind, save, modify, ret, set_files. cbn [prs files log requests].
  unfold deck_of, deck_filename. rewrite <- !app_assoc. reflexivity.
Qed.

(** The run on a decoded object with a text that is refused: it stops with
    [ValueError] before the deck is saved.  Staged files of the entries
    built before may have come and gone; no other file has changed, and
    without [include_images] no file has changed and nothing was
    requested. *)
Lemma build_deck_refused include_images data st :
  texts_ok env (deck_texts data) = false →
  ∃ st',
    build_deck env NAVY_BLUE (JObject data) include_images st
    = (Raise ValueError, st') ∧
    (∀ name,
       (∀ j, j < length (default [] (slides data)) → name ≠ temp_filename j) →
       files st' !! name = files st !! name) ∧
    (include_images = false →
       files st' = files st ∧ log st' = log st ∧ requests st' = requests st).
Proof.
  rewrite deck_texts_ok. intros Hno. destruct st as [p f l n].
  cbn [files log requests]. unfold build_deck. cbv zeta.
  assert (HP : Presentation (mkState p f l n) = (Ok tt, mkState [] f l n))
    by reflexivity.
  rewrite (bind_run _ _ _ _ _ HP).
  rewrite (bind_run _ _ _ _ _ (add_slide_run [] f l n)).
  rewrite (bind_run _ _ _ _ _ (add_shape_run _ [] _ f l n)).
  cbn [as_dict]. unfold bind at 1, ret at 1. cbv beta iota.
  rewrite bind_textbox, texts_ok_added. cbn [text].
  destruct (writable env (default (lit "Presentation") (presentation_title data)));
    [|eexists; split; [reflexivity|]; done].
  rewrite bind_textbox, texts_ok_added. cbn [text].
  destruct (writable env (lit "Generated by AI Agent"));
    [|eexists; split; [reflexivity|]; done].
  rewrite (bind_run _ _ _ _ _ (add_slide_run _ f l n)).
  rewrite bind_textbox, texts_ok_added. cbn [text].
  destruct (writable env (lit "Table of Contents"));
    [|eexists; split; [reflexivity|]; done].
  rewrite (bind_run _ _ _ _ _ (add_shape_run _ _ _ f l n)).
  cbn [andb] in Hno.
  destruct (texts_ok env (bulleted <$> default [] (table_of_contents data)))
    eqn:Htoc.
  2:{ match goal with
      | |- context [bind (for_each _ ?shs) _ (mkState (?p0 ++ [?s0]) _ _ _)] =>
          destruct (for_each_add_textbox_refused env shs p0 s0 f l n
                      (eq_trans (toc_boxes_texts _) Htoc)) as (p' & Hrun)
      end.
      eexists. split; [apply bind_raise, Hrun|]. done. }
  rewrite (bind_run _ _ _ _ _ (for_each_add_textbox_run env _ _ _ f l n
                                 (eq_trans (toc_boxes_texts _) Htoc))).
  cbn [andb] in Hno.
  destruct (texts_ok env (default [] (slides data) ≫= slide_texts)) eqn:Hslides.
  2:{ match goal with
      | |- context [bind (for_enumerate _ _ _) _ (mkState ?p0 _ _ _)] =>
          destruct (content_loop_refused include_images _ Hslides 0 p0 f l n)
            as (st' & Hrun & Hfiles & Hoff)
      end.
      exists st'. split; [apply bind_raise, Hrun|]. split; assumption. }
  destruct (content_loop_run include_images _ Hslides 0 f l n)
    as (imgs & f' & evs & k & Hlen & Hoff & _ & Hloop & Hfiles).
  rewrite (bind_run _ _ _ _ _ (Hloop _)).
  assert (Hframe :
    (∀ name,
       (∀ j, j < length (default [] (slides data)) → name ≠ temp_filename j) →
       f' !! name = f !! name) ∧
    (include_images = false → f' = f ∧ l ++ evs = l ∧ n + k = n)).
  { split; [exact Hfiles|]. intros Hinc.
    destruct (Hoff Hinc) as (_ & -> & -> & ->).
    rewrite app_nil_r, Nat.add_0_r. done. }
  cbn [andb] in Hno.
  rewrite (bind_run _ _ _ _ _ (add_slide_run _ _ _ _)).
  rewrite bind_textbox, texts_ok_first. cbn [text].
  destruct (writable env
              (default (lit "Conclusion")
                 (conclusion_title
                    (default (mkConclusionData None None) (conclusion data)))));
    [|eexists; split; [reflexivity|]; exact Hframe].
  rewrite (bind_run _ _ _ _ _ (add_shape_run _ _ _ _ _ _)).
  rewrite bind_textbox, texts_ok_after_empty, conclusion_paragraph_texts.
  cbn [andb] in Hno.
  destruct (texts_ok env
              (bulleted <$>
                 default []
                   (conclusion_content
                      (default (mkConclusionData None None) (conclusion data)))));
    [|eexists; split; [reflexivity|]; exact Hframe].
  rewrite (bind_run _ _ _ _ _ (add_slide_run _ _ _ _)).
  rewrite (bind_run _ _ _ _ _ (fill_background_run _ _ _ _ _ _)).
  rewrite bind_textbox, texts_ok_added. cbn [text].
  cbn [andb] in Hno. rewrite Hno.
  eexists. split; [reflexivity|]. exact Hframe.
Qed.

End Pipeline.

(** ** The order and the number of the slides *)

Lemma with_toc_same (data : ContentTree) :
  with_toc data (table_of_contents data) = data.
Proof. destruct data; reflexivity. Qed.

Lemma content_slides_built_length env NAVY_BLUE infos imgs :
  length imgs = length infos →
  length (content_slides_built env NAVY_BLUE infos imgs) = length infos.
Proof.
  intros H. unfold content_slides_built. rewrite length_zip_with. lia.
Qed.

Lemma content_slides_built_lookup env NAVY_BLUE infos imgs j info :
  length imgs = length infos →
  infos !! j = Some info →
  ∃ img_data,
    imgs !! j = Some img_data ∧
    content_slides_built env NAVY_BLUE infos imgs !! j
    = Some (content_slide_built env NAVY_BLUE info img_data).
Proof.
  intros Hlen Hj.
  destruct (lookup_lt_is_Some_2 imgs j) as [img Himg].
  { rewrite Hlen. eapply lookup_lt_Some, Hj. }
  exists img. split; [exact Himg|].
  unfold content_slides_built. rewrite lookup_zip_with, Hj, Himg. reflexivity.
Qed.

Lemma deck_of_length NAVY_BLUE data content_slides :
  length (deck_of NAVY_BLUE data content_slides) = length content_slides + 4.
Proof. unfold deck_of. cbn [app length]. rewrite length_app. cbn [length]. lia. Qed.

(** The content slide of entry [j] is slide [2 + j] of the deck. *)
Lemma deck_of_lookup_content NAVY_BLUE data content_slides j s :
  content_slides !! j = Some s →
  deck_of NAVY_BLUE data content_slides !! (2 + j) = Some s.
Proof.
  intros H. unfold deck_of. cbn [app lookup list_lookup Nat.add].
  apply lookup_app_l_Some, H.
Qed.


(** ** Input that does not decode *)

(** When [json.loads] rejects the input, [create_ppt_file] returns [None]
    and the state is the one it started from: no slide was built, no
    request made, no file written. *)
Lemma create_ppt_file_malformed env NAVY_BLUE slide_data include_images st :
  json_loads env slide_data = None →
  create_ppt_file env NAVY_BLUE slide_data include_images st = (Ok None, st).
Proof.
  intros Hparse. unfold create_ppt_file. rewrite Hparse. reflexivity.
Qed.

(** The guard is on the decoder only.  A text that decodes to a JSON value
    without [get] (an array, a number) is not rejected by [json.loads]; the
    run then stops with [AttributeError] at the first [data.get], after the
    decorative bar of the title slide, and saves nothing. *)
Lemma create_ppt_file_not_object env NAVY_BLUE slide_data include_images st :
  json_loads env slide_data = Some JNotObject →
  ∃ st',
    create_ppt_file env NAVY_BLUE slide_data include_images st
    = (Raise AttributeError, st') ∧
    length (prs st') = 1 ∧ files st' = files st ∧ log st' = log st ∧
    requests st' = requests st.
Proof.
  intros Hparse. unfold create_ppt_file. rewrite Hparse.
  eexists. split; [reflexivity|]. cbn. done.
Qed.

(** A decoded object with a text that python-pptx refuses: the run stops
    with [ValueError] and saves nothing. *)
Lemma create_ppt_file_refused env NAVY_BLUE slide_data include_images data st :
  json_loads env slide_data = Some (JObject data) →
  texts_ok env (deck_texts data) = false →
  ∃ st',
    create_ppt_file env NAVY_BLUE slide_data include_images st
    = (Raise ValueError, st') ∧
    (∀ name,
       (∀ j, j < length (default [] (slides data)) → name ≠ temp_filename j) →
       files st' !! name = files st !! name) ∧
    (include_images = false →
       files st' = files st ∧ log st' = log st ∧ requests st' = requests st).
Proof.
  intros Hparse Hno. unfold create_ppt_file. rewrite Hparse.
  apply build_deck_refused, Hno.
Qed.

(** ** Content slides without images *)

Lemma content_slide_built_no_image env NAVY_BLUE info :
  body_width (content_slide_built env NAVY_BLUE info None) = Some (Inches 9.0)
  ∧ pictures (content_slide_built env NAVY_BLUE info None) = [].
Proof. split; reflexivity. Qed.

(** C10.  With [include_images=False] a run makes no request at all,
    whatever the input is and however the run ends: the log and the number
    of requests are unchanged (no search, no download).  When the deck is
    built (the input decodes to a content tree whose texts python-pptx
    takes), every content slide has the body text box 9 inches wide and no
    picture, whatever [image_description] the entries carry. *)
Theorem create_ppt_file_without_images env NAVY_BLUE slide_data st :
  ∃ r st',
    create_ppt_file env NAVY_BLUE slide_data false st = (r, st') ∧
    log st' = log st ∧
    requests st' = requests st ∧
    ∀ data,
      json_loads env slide_data = Some (JObject data) →
      texts_ok env (deck_texts data) = true →
      ∃ filename,
        r = Ok (Some filename) ∧
        length (prs st') = length (default [] (slides data)) + 4 ∧
        (∀ j info, default [] (slides data) !! j = Some info →
           ∃ s, prs st' !! (2 + j) = Some s ∧
                slide_heading s = Some (default (lit "Slide") (title info)) ∧
                body_width s = Some (Inches 9.0) ∧
                pictures s = []).
Proof.
  destruct (json_loads env slide_data) as [[data|]|] eqn:Hparse.
  - destruct (texts_ok env (deck_texts data)) eqn:Hok.
    + destruct st as [p f l n].
      destruct (build_deck_run env NAVY_BLUE false data f l n Hok)
        as (imgs & f' & evs & k & Hlen & Hoff & _ & Hrun).
      destruct (Hoff eq_refl) as (Himgs & _ & -> & ->).
      pose proof (content_slides_built_length env NAVY_BLUE _ _ Hlen) as Hcs.
      eexists _, _. split.
      { unfold create_ppt_file. rewrite Hparse.
        rewrite <- (with_toc_same data) at 1.
        apply Hrun, (deck_texts_toc_ok _ _ Hok). }
      cbn [prs files log requests]. rewrite with_toc_same.
      split; [apply app_nil_r|]. split; [lia|].
      intros data' [= <-] _. exists (deck_filename env).
      split; [reflexivity|].
      split; [rewrite deck_of_length, Hcs; reflexivity|].
      intros j info Hj.
      destruct (content_slides_built_lookup env NAVY_BLUE _ _ _ _ Hlen Hj)
        as (img & Himg & Hs).
      rewrite Himgs in Himg. apply lookup_replicate_1 in Himg as [-> _].
      exists (content_slide_built env NAVY_BLUE info None).
      split; [apply deck_of_lookup_content, Hs|].
      split; [reflexivity|]. apply content_slide_built_no_image.
    + destruct (create_ppt_file_refused env NAVY_BLUE _ false _ st Hparse Hok)
        as (st' & Hrun & _ & Hoff).
      destruct (Hoff eq_refl) as (_ & Hlog & Hreq).
      exists (Raise ValueError), st'. split; [exact Hrun|].
      split; [exact Hlog|]. split; [exact Hreq|].
      intros data' [= <-] Hok'. congruence.
  - destruct (create_ppt_file_not_object env NAVY_BLUE _ false st Hparse)
      as (st' & Hrun & _ & _ & Hlog & Hreq).
    exists (Raise AttributeError), st'. split; [exact Hrun|].
    split; [exact Hlog|]. split; [exact Hreq|]. intros data' [=].
  - exists (Ok None), st.
    split; [apply create_ppt_file_malformed, Hparse|].
    split; [reflexivity|]. split; [reflexivity|]. intros data' [=].
Qed.

(** ** The table of contents *)


Lemma toc_boxes_fonts (toc_items : list pystr) box par :
  box ∈ toc_boxes toc_items →
  par ∈ added_paragraphs box →
  font_size par = Some (fst (toc_sizing (length toc_items))) ∧
  space_after par = Some (snd (toc_sizing (length toc_items))).
Proof.
  unfold toc_boxes. intros Hbox Hpar.
  destruct (4 <? length toc_items).
  - apply elem_of_cons in Hbox as [->|Hbox];
      [|apply list_elem_of_singleton in Hbox as ->];
      cbn [added_paragraphs paragraphs_of tail] in Hpar;
      apply list_elem_of_fmap in Hpar as (item & -> & _); done.
  - apply list_elem_of_singleton in Hbox as ->.
    cbn [added_paragraphs paragraphs_of tail] in Hpar.
    apply list_elem_of_fmap in Hpar as (item & -> & _). done.
Qed.

(** C8, amended.  Every item of the table of contents is set in the font
    size and with the spacing chosen by the number of items: more than 8
    items give 14pt and 8pt, 6 to 8 items give 16pt and 12pt, at most 5
    items give 20pt and 14pt. *)
Theorem toc_font_by_count (toc_items : list pystr) :
  let n := length toc_items in
  (∀ box par, box ∈ toc_boxes toc_items → par ∈ added_paragraphs box →
     font_size par = Some (fst (toc_sizing n)) ∧
     space_after par = Some (snd (toc_sizing n))) ∧
  (8 < n → toc_sizing n = (Pt 14, Pt 8)) ∧
  (5 < n ≤ 8 → toc_sizing n = (Pt 16, Pt 12)) ∧
  (n ≤ 5 → toc_sizing n = (Pt 20, Pt 14)).
Proof.
  intros n. split; [intros box par; apply toc_boxes_fonts|].
  unfold toc_sizing.
  destruct (Nat.ltb_spec 8 n), (Nat.ltb_spec 5 n);
    repeat split; intros; (reflexivity || lia).
Qed.

(** ** The body of a content slide *)





(** ** Images on a content slide *)

(** When the image of a slide is there: never without [include_images] or
    without a query; otherwise it is what the download gives for the URL
    the search returned, and absent when the search returns none. *)
Lemma slide_image_available env include_images info st img_data st_img :
  slide_image env include_images info st = (Ok img_data, st_img) →
  let query := default [] (image_description info) in
  (include_images = false ∨ truthy query = false → img_data = None) ∧
  (include_images = true → truthy query = true →
   ∀ img_url st_url,
     generate_image env query st = (Ok img_url, st_url) →
     match img_url with
     | Some url =>
         if truthy url
         then fetch_image env url 3 st_url = (Ok img_data, st_img)
         else img_data = None
     | None => img_data = None
     end).
Proof.
  intros H query. unfold slide_image in H. fold query in H. split.
  - intros [-> | Hq].
    + cbn in H. unfold ret in H. congruence.
    + rewrite Hq, andb_false_r in H. unfold ret in H. congruence.
  - intros -> Hq img_url st_url Hgen. rewrite Hq in H. cbn [andb] in H.
    rewrite (bind_run _ _ _ _ _ Hgen) in H.
    destruct img_url as [url|]; [|unfold ret in H; congruence].
    destruct (truthy url); [exact H | unfold ret in H; congruence].
Qed.

Lemma content_slide_built_layout env NAVY_BLUE info img_data :
  let s := content_slide_built env NAVY_BLUE info img_data in
  match img_data with
  | Some data =>
      body_width s = Some (Inches 5.0) ∧
      pictures s
      = if add_picture_ok env data
        then [Picture data (Inches 6.0) (Inches 2.0) (Inches 3.5)
                NAVY_BLUE (Pt 2)]
        else []
  | None => body_width s = Some (Inches 9.0) ∧ pictures s = []
  end.
Proof.
  intros s. subst s. destruct img_data as [data|]; [|split; reflexivity].
  split; [reflexivity|].
  unfold pictures, content_slide_built, picture_shapes. cbn [shapes].
  destruct (add_picture_ok env data); reflexivity.
Qed.

(** C4, amended.  The loop body builds the slide of an entry when
    python-pptx takes its heading and its bullets, and stops with
    [ValueError] when it refuses one.  Whatever [slide_image] yields decides
    the layout of the slide it builds.  With
    bytes, the body text box is 5 inches wide, and the picture is placed at
    6.0 from the left and 2.0 from the top, 3.5 wide, when python-pptx takes
    the bytes; when placing it raises, the exception is dropped and the
    slide has no picture.  Without bytes the body is 9 inches wide and there
    is no picture.  Bytes are there only when images are included, the entry
    has a query, the search returned a URL and the download of that URL
    succeeded. *)
Theorem content_slide_image_layout env NAVY_BLUE include_images i info st
    img_data st_img :
  slide_image env include_images info st = (Ok img_data, st_img) →
  let query := default [] (image_description info) in
  ∃ r st',
    content_slide env NAVY_BLUE include_images i info st = (r, st') ∧
    (texts_ok env (slide_texts info) = true → r = Ok tt) ∧
    (texts_ok env (slide_texts info) = false → r = Raise ValueError) ∧
    (r = Ok tt →
     ∃ s,
       prs st' = prs st ++ [s] ∧
       match img_data with
       | Some data =>
           body_width s = Some (Inches 5.0) ∧
           pictures s
           = if add_picture_ok env data
             then [Picture data (Inches 6.0) (Inches 2.0) (Inches 3.5)
                     NAVY_BLUE (Pt 2)]
             else []
       | None => body_width s = Some (Inches 9.0) ∧ pictures s = []
       end) ∧
    (include_images = false ∨ truthy query = false → img_data = None) ∧
    (include_images = true → truthy query = true →
     ∀ img_url st_url,
       generate_image env query st = (Ok img_url, st_url) →
       match img_url with
       | Some url =>
           if truthy url
           then fetch_image env url 3 st_url = (Ok img_data, st_img)
           else img_data = None
       | None => img_data = None
       end).
Proof.
  intros Himg query.
  pose proof (slide_image_available _ _ _ _ _ _ Himg) as Havail.
  destruct st as [p f l n].
  destruct (texts_ok env (slide_texts info)) eqn:Hok.
  - destruct (content_slide_run env NAVY_BLUE include_images i info f l n Hok)
      as (img & evs & k & Himg' & _ & Hrun).
    rewrite Himg' in Himg. injection Himg as -> _.
    eexists _, _. split; [apply Hrun|]. split; [done|]. split; [discriminate|].
    split; [|exact Havail].
    intros _. exists (content_slide_built env NAVY_BLUE info img_data).
    cbn [prs]. split; [reflexivity|]. apply content_slide_built_layout.
  - destruct (content_slide_refused env NAVY_BLUE include_images i info p f l n
                Hok) as (st' & Hrun & _).
    exists (Raise ValueError), st'. split; [exact Hrun|].
    split; [discriminate|]. split; [done|].
    split; [discriminate | exact Havail].
Qed.

(** ** Downloading an image *)

(** One turn of the loop of [fetch_image]. *)
Lemma fetch_attempts_step env url attempt rest p f l n :
  fetch_attempts env url (attempt :: rest) (mkState p f l n)
  = match requests_get env n url with
    | Response status_code body =>
        if (status_code =? 200)%Z
        then (Ok (Some body), mkState p f (l ++ [EvGet url]) (S n))
        else fetch_attempts env url rest
               (mkState p f ((l ++ [EvGet url]) ++ [EvSleep (1 * (attempt + 1))])
                  (S n))
    | RequestException =>
        fetch_attempts env url rest
          (mkState p f ((l ++ [EvGet url]) ++ [EvSleep (1 * (attempt + 1))])
             (S n))
    end.
Proof.
  cbn [fetch_attempts].
  unfold bind, image_get, sleep, modify, count_request, log_event.
  cbn [prs files log requests].
  destruct (requests_get env n url) as [status_code body|];
    [destruct (status_code =? 200)%Z|]; reflexivity.
Qed.




(** ** Bullets *)

(** The bullets of a content slide are stripped and none is blank. *)
Lemma slide_bullets_not_blank info b :
  b ∈ slide_bullets info → truthy b = true.
Proof.
  unfold slide_bullets.
  destruct (strip <$> List.filter _ _) as [|b0 bs] eqn:E.
  - intros ->%list_elem_of_singleton. reflexivity.
  - rewrite <- E. intros (raw & -> & Hraw)%list_elem_of_fmap.
    apply list_elem_of_In, List.filter_In in Hraw as [_ Hraw]. exact Hraw.
Qed.

(** A list of blank bullets, or none, gives the placeholder. *)
Lemma slide_bullets_placeholder info :
  (∀ b, b ∈ default [] (content info) → truthy (strip b) = false) →
  slide_bullets info = [lit "(No content generated)"].
Proof.
  intros Hblank. unfold slide_bullets.
  destruct (List.filter _ _) as [|b bs] eqn:E; [reflexivity|].
  assert (Hb : In b (List.filter (λ b, truthy (strip b))
                       (default [] (content info)))).
  { rewrite E. by left. }
  apply List.filter_In in Hb as [Hin Hb].
  rewrite Hblank in Hb by (apply list_elem_of_In, Hin). discriminate.
Qed.


(** The body of the conclusion has the glyph in front of each point too, but
    it takes the points as they come: none is stripped or dropped, there is
    no placeholder, and the sizing counts them whole. *)
Lemma conclusion_body_texts NAVY_BLUE data body :
  slide_body (conclusion_slide NAVY_BLUE data) = Some body →
  let conc_points :=
    default []
      (conclusion_content
         (default (mkConclusionData None None) (conclusion data))) in
  text <$> added_paragraphs body = bulleted <$> conc_points ∧
  ∀ par, par ∈ added_paragraphs body →
    font_size par = Some (fst (conclusion_sizing (total_len conc_points))).
Proof.
  intros [= <-] conc_points.
  cbn [added_paragraphs paragraphs_of tail]. fold conc_points. split.
  - apply conclusion_paragraph_texts.
  - intros par (point & -> & _)%list_elem_of_fmap. reflexivity.
Qed.

(** ** The staged image file *)


(** ** Worked runs

    The theorems above at the inputs of [graph_tree]: five entries in the
    table of contents for two content slides. *)



Lemma toc_font_by_count_witness :
  5 < length (lit "Graphs" :: five_items) ≤ 8 ∧
  toc_sizing (length (lit "Graphs" :: five_items)) = (Pt 16, Pt 12).
Proof.
  assert (H : 5 < length (lit "Graphs" :: five_items) ≤ 8) by (cbn; lia).
  split; [exact H|].
  exact (proj1 (proj2 (proj2 (toc_font_by_count (lit "Graphs" :: five_items)))) H).
Defined.


Lemma content_slide_image_layout_witness :
  texts_ok (run_env (Response 200 tiny_gif) true) (slide_texts vertices_slide)
  = true ∧
  slide_image (run_env (Response 200 tiny_gif) true) true vertices_slide
    fresh_state
  = (Ok (Some tiny_gif),
     mkState [] ∅ [EvSearch (lit "network"); EvGet photo_url] 2) ∧
  ∃ st' s,
    content_slide (run_env (Response 200 tiny_gif) true) navy true 0
      vertices_slide fresh_state
    = (Ok tt, st') ∧
    prs st' = [s] ∧
    body_width s = Some (Inches 5.0) ∧
    pictures s
    = [Picture tiny_gif (Inches 6.0) (Inches 2.0) (Inches 3.5) navy (Pt 2)].
Proof.
  assert (Hok : texts_ok (run_env (Response 200 tiny_gif) true)
                  (slide_texts vertices_slide) = true)
    by reflexivity.
  split; [exact Hok|]. split; [reflexivity|].
  destruct (content_slide_image_layout (run_env (Response 200 tiny_gif) true)
              navy true 0 vertices_slide fresh_state (Some tiny_gif)
              (mkState [] ∅ [EvSearch (lit "network"); EvGet photo_url] 2)
              eq_refl)
    as (r & st' & Hrun & Hbuilt & _ & Hslide & _).
  assert (r = Ok tt) as -> by (apply Hbuilt, Hok).
  destruct (Hslide eq_refl) as (s & Hprs & Hlay).
  exists st', s. split; [exact Hrun|]. split; [exact Hprs | exact Hlay].
Defined.


Lemma create_ppt_file_without_images_witness :
  json_loads (run_env (Response 200 tiny_gif) true) graph_text
  = Some (JObject graph_tree) ∧
  texts_ok (run_env (Response 200 tiny_gif) true) (deck_texts graph_tree)
  = true ∧
  ∃ filename st' s,
    create_ppt_file (run_env (Response 200 tiny_gif) true) navy graph_text false
      fresh_state
    = (Ok (Some filename), st') ∧
    log st' = [] ∧ requests st' = 0 ∧
    prs st' !! 2 = Some s ∧
    slide_heading s = Some (lit "Vertices") ∧
    body_width s = Some (Inches 9.0) ∧ pictures s = [].
Proof.
  split; [reflexivity|]. split; [reflexivity|].
  destruct (create_ppt_file_without_images (run_env (Response 200 tiny_gif) true)
              navy graph_text fresh_state)
    as (r & st' & Hrun & Hlog & Hreq & Hbuilt).
  destruct (Hbuilt graph_tree eq_refl eq_refl) as (filename & -> & _ & Hslides).
  destruct (Hslides 0 vertices_slide eq_refl) as (s & Hs & Hhead & Hwidth & Hpics).
  exists filename, st', s.
  repeat (split; [assumption|]). assumption.
Defined.

(** ** Where the code and the specification part *)



(** C6: the text [[1, 2]] is JSON but no content tree.  [json.loads]
    decodes it, so the guard of lines 155-158 lets it through; the first
    slide and its decorative bar are built, and the run stops with
    [AttributeError] at the first [data.get] (line 216) instead of
    returning [None].  A text that is not JSON does give [None], and that is
    the only failure the page is ready for. *)
Theorem create_ppt_file_array :
  json_loads (run_env (Response 200 tiny_gif) true) (lit "[1, 2]")
  = Some JNotObject ∧
  (let out :=
     create_ppt_file (run_env (Response 200 tiny_gif) true) navy (lit "[1, 2]")
       true fresh_state in
   fst out = Raise AttributeError ∧
   prs (snd out)
   = [mkSlide None
        [Rectangle (Inches 0) (Inches 0) (Inches 10) (Inches 0.5) navy]] ∧
   files (snd out) = ∅) ∧
  create_ppt_file (run_env (Response 200 tiny_gif) true) navy cut_text true
    fresh_state
  = (Ok None, fresh_state).
Proof.
  split; [reflexivity|].
  split; [vm_compute; repeat split; reflexivity | reflexivity].
Qed.


(** C8: five items are set in 20pt with 14pt spacing, not in the 16pt and
    12pt that the band "5 to 8" announces. *)
Lemma toc_bands_counterexample :
  length five_items = 5 ∧
  (λ par, (font_size par, space_after par))
    <$> (toc_boxes five_items ≫= added_paragraphs)
  = replicate 5 (Some (Pt 20), Some (Pt 14)) ∧
  ¬ toc_bands_as_stated (length five_items).
Proof.
  split; [reflexivity|]. split; [vm_compute; reflexivity|].
  intros (_ & Hmid & _).
  assert (H : 5 ≤ length five_items ≤ 8) by (cbn; lia).
  specialize (Hmid H). vm_compute in Hmid. discriminate.
Qed.

(** C4: the search finds a photo and the download answers 200 with bytes
    that are no image.  The bytes are there, the body is 5 inches wide, and
    the slide has no picture.  And when the bytes are an image but a bullet
    of the entry is refused by python-pptx, the loop body stops with
    [ValueError] (line 407) before the image is staged and placed. *)
Lemma picture_missing_counterexample :
  slide_image (run_env (Response 200 html) false) true vertices_slide
    fresh_state
  = (Ok (Some html),
     mkState [] ∅ [EvSearch (lit "network"); EvGet photo_url] 2) ∧
  (let out :=
     content_slide (run_env (Response 200 html) false) navy true 0
       vertices_slide fresh_state in
   fst out = Ok tt ∧
   body_width <$> prs (snd out) = [Some (Inches 5.0)] ∧
   pictures <$> prs (snd out) = [[]]) ∧
  slide_image (run_env (Response 200 tiny_gif) true) true marked_bullet_slide
    fresh_state
  = (Ok (Some tiny_gif),
     mkState [] ∅ [EvSearch (lit "network"); EvGet photo_url] 2) ∧
  (let out :=
     content_slide (run_env (Response 200 tiny_gif) true) navy true 0
       marked_bullet_slide fresh_state in
   fst out = Raise ValueError ∧ files (snd out) = ∅).
Proof.
  split; [reflexivity|].
  split; [vm_compute; repeat split; reflexivity|].
  split; [reflexivity|]. vm_compute. split; reflexivity.
Qed.

(** C5: blank points of the conclusion are rendered as bullets, with no
    placeholder, while the content slide before it, whose only bullet is
    blank, gets the placeholder. *)
Theorem conclusion_keeps_blank_points :
  let out :=
    create_ppt_file (run_env (Response 200 tiny_gif) true) navy graph_text false
      fresh_state in
  fst out = Ok (Some "generated_presentation_3fa9c1.pptx"%string) ∧
  (∃ s body,
     prs (snd out) !! 4 = Some s ∧ slide_body s = Some body ∧
     slide_heading s = Some (lit "Conclusion") ∧
     text <$> added_paragraphs body = [bulleted (lit "  "); bulleted []]) ∧
  (∃ s body,
     prs (snd out) !! 3 = Some s ∧ slide_body s = Some body ∧
     text <$> added_paragraphs body
     = [bulleted (lit "(No content generated)")]).
Proof.
  vm_compute. split; [reflexivity|].
  split; eexists _, _; repeat split; reflexivity.
Qed.

(** C9: the picture cannot be placed, the handler is reached before
    [os.remove], and the staged file is still there when the deck is
    saved. *)
Theorem staged_file_left_behind :
  let out :=
    create_ppt_file (run_env (Response 200 html) false) navy graph_text true
      fresh_state in
  fst out = Ok (Some "generated_presentation_3fa9c1.pptx"%string) ∧
  files (snd out) !! temp_filename 0 = Some (ImageFile html) ∧
  temp_filename 0 = "temp_img_0.jpg"%string ∧
  pictures <$> prs (snd out) !! 2 = Some [].
Proof. vm_compute. repeat split; reflexivity. Qed.

(** * Further properties *)

Lemma downloads_app evs1 evs2 :
  downloads (evs1 ++ evs2) = downloads evs1 + downloads evs2.
Proof. unfold downloads. rewrite List.filter_app, length_app. reflexivity. Qed.

Lemma searches_app evs1 evs2 :
  searches (evs1 ++ evs2) = searches evs1 + searches evs2.
Proof. unfold searches. rewrite List.filter_app, length_app. reflexivity. Qed.


Lemma sleep_seconds_app evs1 evs2 :
  sleep_seconds (evs1 ++ evs2) = sleep_seconds evs1 + sleep_seconds evs2.
Proof. unfold sleep_seconds. rewrite bind_app, sum_list_with_app. reflexivity. Qed.


(** The loop of [fetch_image], on any list of attempts: it stops at the
    first answer with status 200 and returns its body; before that, each
    failed attempt is followed by its sleep. *)
Lemma fetch_attempts_trace env url attempts p f l n :
  ∃ r evs,
    fetch_attempts env url attempts (mkState p f l n)
    = (Ok r, mkState p f (l ++ evs) (downloads evs + n)) ∧
    match r with
    | None =>
        evs = failed_log url attempts ∧
        downloads evs = length attempts ∧
        ∀ j, j < length attempts →
             attempt_failed (requests_get env (n + j) url) = true
    | Some body =>
        ∃ j, j < length attempts ∧
             requests_get env (n + j) url = Response 200 body ∧
             (∀ i, i < j → attempt_failed (requests_get env (n + i) url) = true) ∧
             evs = failed_log url (take j attempts) ++ [EvGet url] ∧
             downloads evs = S j
    end.
Proof.
  revert l n. induction attempts as [|attempt rest IH]; intros l n.
  - exists None, []. split.
    + cbn. unfold ret. rewrite app_nil_r. reflexivity.
    + split; [reflexivity|]. split; [reflexivity|]. cbn. lia.
  - rewrite fetch_attempts_step.
    destruct (IH ((l ++ [EvGet url]) ++ [EvSleep (1 * (attempt + 1))]) (S n))
      as (r & evs & Hrun & Hr).
    assert (Hfailcase :
      attempt_failed (requests_get env n url) = true →
      ∃ r0 evs0,
        fetch_attempts env url rest
          (mkState p f ((l ++ [EvGet url]) ++ [EvSleep (1 * (attempt + 1))]) (S n))
        = (Ok r0, mkState p f (l ++ evs0) (downloads evs0 + n)) ∧
        match r0 with
        | None =>
            evs0 = failed_log url (attempt :: rest) ∧
            downloads evs0 = length (attempt :: rest) ∧
            ∀ j, j < length (attempt :: rest) →
                 attempt_failed (requests_get env (n + j) url) = true
        | Some body =>
            ∃ j, j < length (attempt :: rest) ∧
                 requests_get env (n + j) url = Response 200 body ∧
                 (∀ i, i < j →
                       attempt_failed (requests_get env (n + i) url) = true) ∧
                 evs0 = failed_log url (take j (attempt :: rest)) ++ [EvGet url] ∧
                 downloads evs0 = S j
        end).
    { intros Hfail0.
      exists r, ([EvGet url; EvSleep (1 * (attempt + 1))] ++ evs). split.
      - rewrite Hrun. rewrite downloads_app. rewrite <- !app_assoc.
        cbn [app]. f_equal. f_equal. cbn. lia.
      - destruct r as [body|].
        + destruct Hr as (j & Hj & Hok & Hbefore & -> & Hd).
          exists (S j). split; [cbn; lia|]. split.
          { rewrite <- Hok. f_equal. lia. }
          split.
          { intros [|i] Hi; [rewrite Nat.add_0_r; exact Hfail0|].
            replace (n + S i) with (S n + i) by lia. apply Hbefore. lia. }
          split; [reflexivity|]. rewrite downloads_app, Hd. reflexivity.
        + destruct Hr as (-> & Hd & Hall). split; [reflexivity|]. split.
          { rewrite downloads_app, Hd. reflexivity. }
          intros [|j] Hj; [rewrite Nat.add_0_r; exact Hfail0|].
          replace (n + S j) with (S n + j) by lia. apply Hall. cbn in Hj. lia. }
    destruct (requests_get env n url) as [status_code body|] eqn:E0.
    + destruct (Z.eqb_spec status_code 200) as [->|Hne].
      * exists (Some body), [EvGet url]. split; [reflexivity|].
        exists 0. split; [cbn; lia|]. split; [rewrite Nat.add_0_r; exact E0|].
        split; [intros i Hi; lia|]. split; reflexivity.
      * apply Hfailcase. cbn. apply negb_true_iff, Z.eqb_neq, Hne.
    + apply Hfailcase. reflexivity.
Qed.

Lemma failed_log_sleep url attempts :
  sleep_seconds (failed_log url attempts) = sum_list (S <$> attempts).
Proof.
  induction attempts as [|a rest IH]; [reflexivity|].
  unfold sleep_seconds, failed_log in *. cbn in *. rewrite IH. lia.
Qed.

Lemma failed_log_downloads url attempts :
  downloads (failed_log url attempts) = length attempts.
Proof.
  induction attempts as [|a rest IH]; [reflexivity|].
  unfold downloads, failed_log in *. cbn in *. rewrite IH. reflexivity.
Qed.

Lemma failed_log_searches url attempts : searches (failed_log url attempts) = 0.
Proof.
  induction attempts as [|a rest IH]; [reflexivity|].
  unfold searches, failed_log in *. cbn in *. exact IH.
Qed.

(** [1 + 2 + ... + n], twice. *)
Lemma sum_backoff (n : nat) : 2 * sum_list (S <$> seq 0 n) = n * (n + 1).
Proof.
  induction n as [|n IH]; [reflexivity|].
  rewrite seq_S, fmap_app, sum_list_with_app. cbn [fmap list_fmap sum_list_with].
  unfold id at 2. lia.
Qed.

Lemma attempt_failed_ok status_code body :
  attempt_failed (Response status_code body) = false ↔ status_code = 200%Z.
Proof.
  cbn. rewrite negb_false_iff. apply Z.eqb_eq.
Qed.

Section Fetch.

Variable env : Env.

(** X2.  When every attempt fails, [fetch_image] returns [None] after
    [retries] requests, each followed by its sleep of 1s, 2s, ... [retries]
    seconds, which add up to [retries * (retries + 1) / 2]; the slides and
    the files are untouched.  With [retries = 0] it returns [None] at once,
    without a request. *)
Theorem fetch_image_exhausted url retries st :
  (∀ j, j < retries →
        attempt_failed (requests_get env (requests st + j) url) = true) →
  fetch_image env url retries st
  = (Ok None,
     mkState (prs st) (files st) (log st ++ failed_log url (seq 0 retries))
       (requests st + retries)) ∧
  2 * sleep_seconds (failed_log url (seq 0 retries)) = retries * (retries + 1).
Proof.
  intros Hfail. destruct st as [p f l n]. cbn [prs files log requests] in *.
  split; [|rewrite failed_log_sleep; apply sum_backoff].
  unfold fetch_image.
  destruct (fetch_attempts_trace env url (seq 0 retries) p f l n)
    as (r & evs & Hrun & Hr).
  rewrite length_seq in Hr.
  destruct r as [body|].
  - destruct Hr as (j & Hj & Hok & _).
    specialize (Hfail j Hj). rewrite Hok in Hfail. discriminate.
  - destruct Hr as (-> & Hd & _). rewrite Hrun, Hd. f_equal. f_equal. lia.
Qed.

(** X3.  [fetch_image] returns the body of the first answer with status
    200, after one sleep per failed attempt before it, and makes no request
    and no sleep after it. *)
Theorem fetch_image_first_success url retries st j body :
  j < retries →
  (∀ i, i < j →
        attempt_failed (requests_get env (requests st + i) url) = true) →
  requests_get env (requests st + j) url = Response 200 body →
  fetch_image env url retries st
  = (Ok (Some body),
     mkState (prs st) (files st)
       (log st ++ failed_log url (seq 0 j) ++ [EvGet url])
       (requests st + S j)).
Proof.
  intros Hj Hbefore Hok. destruct st as [p f l n].
  cbn [prs files log requests] in *. unfold fetch_image.
  destruct (fetch_attempts_trace env url (seq 0 retries) p f l n)
    as (r & evs & Hrun & Hr).
  rewrite length_seq in Hr.
  destruct r as [body'|].
  - destruct Hr as (j' & Hj' & Hok' & Hbefore' & -> & Hd).
    assert (j' = j) as ->.
    { destruct (Nat.lt_trichotomy j' j) as [Hlt|[Heq|Hgt]]; [|exact Heq|].
      - specialize (Hbefore j' Hlt). rewrite Hok' in Hbefore. discriminate.
      - specialize (Hbefore' j Hgt). rewrite Hok in Hbefore'. discriminate. }
    rewrite Hok in Hok'. injection Hok' as <-.
    rewrite Hrun, Hd. rewrite take_seq. replace (j `min` retries) with j by lia.
    f_equal. f_equal. lia.
  - destruct Hr as (_ & _ & Hall).
    specialize (Hall j Hj). rewrite Hok in Hall. discriminate.
Qed.

(** X4.  Whatever the answers, [fetch_image] does not raise, makes at most
    [retries] requests and no search, sleeps at most [1 + ... + retries]
    seconds in all, and leaves the slides and the files as they are; it
    returns [None] exactly when every attempt failed. *)
Theorem fetch_image_bounds url retries st :
  ∃ r evs,
    fetch_image env url retries st
    = (Ok r, mkState (prs st) (files st) (log st ++ evs)
               (requests st + downloads evs)) ∧
    downloads evs ≤ retries ∧
    searches evs = 0 ∧
    2 * sleep_seconds evs ≤ retries * (retries + 1) ∧
    (r = None ↔
     ∀ j, j < retries →
          attempt_failed (requests_get env (requests st + j) url) = true).
Proof.
  destruct st as [p f l n]. cbn [prs files log requests]. unfold fetch_image.
  destruct (fetch_attempts_trace env url (seq 0 retries) p f l n)
    as (r & evs & Hrun & Hr).
  rewrite length_seq in Hr. exists r, evs.
  split; [rewrite Hrun; f_equal; f_equal; lia|].
  destruct r as [body|].
  - destruct Hr as (j & Hj & Hok & _ & -> & Hd).
    split; [lia|]. split.
    { rewrite searches_app, failed_log_searches. reflexivity. }
    split.
    { rewrite sleep_seconds_app, failed_log_sleep, take_seq.
      replace (j `min` retries) with j by lia.
      pose proof (sum_backoff j). cbn [sleep_seconds]. 
      change (sleep_seconds [EvGet url]) with 0. nia. }
    split; [discriminate|]. intros Hall.
    specialize (Hall j Hj). rewrite Hok in Hall. discriminate.
  - destruct Hr as (-> & Hd & Hall).
    split; [lia|]. split; [apply failed_log_searches|]. split.
    { rewrite failed_log_sleep. pose proof (sum_backoff retries). lia. }
    split; [intros _; exact Hall | reflexivity].
Qed.


End Fetch.

(** ** Names of the files *)




(** The saved deck is not a staged file. *)
Lemma deck_filename_not_temp env i : deck_filename env ≠ temp_filename i.
Proof.
  unfold deck_filename, temp_filename. intros H.
  apply (f_equal (String.get 0)) in H. cbv in H. discriminate.
Qed.

Section Trace.

Variable env : Env.
Variable NAVY_BLUE : RGBColor.






End Trace.

Section Trace2.

Variable env : Env.
Variable NAVY_BLUE : RGBColor.







End Trace2.




(** ** Stripping *)


Lemma lstrip_suffix s : lstrip s `suffix_of` s.
Proof.
  induction s as [|x s IH]; [done|]. cbn [lstrip].
  destruct (isspace x); [by apply suffix_cons_r | done].
Qed.

Lemma rstrip_prefix s : rstrip s `prefix_of` s.
Proof.
  unfold rstrip. destruct (lstrip_suffix (rev s)) as [k Hk].
  exists (rev k). apply (f_equal (@rev N)) in Hk.
  rewrite rev_involutive, rev_app_distr in Hk. exact Hk.
Qed.




(** [strip] takes characters away only. *)
Lemma strip_length s : length (strip s) ≤ length s.
Proof.
  unfold strip.
  destruct (rstrip_prefix (lstrip s)) as [k Hk].
  destruct (lstrip_suffix s) as [k' Hk'].
  apply (f_equal length) in Hk, Hk'. rewrite length_app in Hk, Hk'. lia.
Qed.



(** ** Font sizes of the headings and of the conclusion *)





Lemma deck_of_lookup_closing NAVY_BLUE data cs :
  deck_of NAVY_BLUE data cs !! (3 + length cs) = Some (closing_slide NAVY_BLUE).
Proof.
  unfold deck_of. rewrite lookup_app_r by (cbn [length]; lia).
  rewrite lookup_app_r by (cbn [length]; lia).
  replace (3 + length cs - length [title_slide NAVY_BLUE data;
             toc_slide NAVY_BLUE (default [] (table_of_contents data))]
           - length cs) with 1 by (cbn [length]; lia).
  reflexivity.
Qed.




(** ** Geometry and colours *)








(** ** The theme colour *)

Lemma hex_digit_range c x : hex_digit c = Some x → (0 ≤ x ≤ 15)%Z ∧ c ≠ 35%N.
Proof.
  unfold hex_digit.
  destruct (N.leb_spec 48 c), (N.leb_spec c 57); cbn [andb];
    [intros [= <-]; lia|..];
    (destruct (N.leb_spec 97 c), (N.leb_spec c 102); cbn [andb];
     [intros [= <-]; lia|..];
     (destruct (N.leb_spec 65 c), (N.leb_spec c 70); cbn [andb];
      [intros [= <-]; lia|..]; discriminate)).
Qed.

Lemma lstrip_hash_hashes k rest :
  lstrip_hash (replicate k 35%N ++ rest) = lstrip_hash rest.
Proof. induction k as [|k IH]; [reflexivity|]. cbn. exact IH. Qed.

Lemma RGBColor_new_valid r g b colour :
  RGBColor_new r g b = Some colour → colour = rgb r g b ∧ valid_rgb colour.
Proof.
  unfold RGBColor_new.
  destruct (Z.leb_spec 0 r), (Z.leb_spec r 255), (Z.leb_spec 0 g),
    (Z.leb_spec g 255), (Z.leb_spec 0 b), (Z.leb_spec b 255);
    cbn [andb]; try discriminate.
  intros [= <-]. split; [reflexivity|]. cbn. lia.
Qed.

Lemma RGBColor_new_ok r g b :
  (0 ≤ r ≤ 255 ∧ 0 ≤ g ≤ 255 ∧ 0 ≤ b ≤ 255)%Z →
  RGBColor_new r g b = Some (rgb r g b).
Proof.
  intros H. unfold RGBColor_new.
  destruct (Z.leb_spec 0 r), (Z.leb_spec r 255), (Z.leb_spec 0 g),
    (Z.leb_spec g 255), (Z.leb_spec 0 b), (Z.leb_spec b 255);
    cbn [andb]; (reflexivity || lia).
Qed.

(** X14.  The colour of the theme always has its three components between
    0 and 255: when a slice does not parse, or a parsed value is out of
    range, the colour is navy (0, 51, 102). *)
Theorem theme_colour_valid int_lenient theme_color :
  valid_rgb (theme_colour int_lenient theme_color) ∧
  (hex_to_rgb int_lenient theme_color = None →
   theme_colour int_lenient theme_color = rgb 0 51 102) ∧
  (∀ r g b, hex_to_rgb int_lenient theme_color = Some (r, g, b) →
     ¬ (0 ≤ r ≤ 255 ∧ 0 ≤ g ≤ 255 ∧ 0 ≤ b ≤ 255)%Z →
     theme_colour int_lenient theme_color = rgb 0 51 102).
Proof.
  unfold theme_colour. split; [|split].
  - destruct (hex_to_rgb int_lenient theme_color) as [[[r g] b]|]; [|cbn; lia].
    destruct (RGBColor_new r g b) as [colour|] eqn:E; [|cbn; lia].
    apply RGBColor_new_valid in E as [_ Hv]. exact Hv.
  - intros ->. reflexivity.
  - intros r g b -> Hout.
    destruct (RGBColor_new r g b) as [colour|] eqn:E; [|reflexivity].
    apply RGBColor_new_valid in E as [-> Hv]. cbn in Hv. contradiction.
Qed.

(** X15.  A theme colour made of any number of [#], six hexadecimal digits
    (of either case) and anything after them gives the three bytes the
    digits spell; what follows the sixth digit is ignored. *)
Theorem theme_colour_hex int_lenient k a1 a2 a3 a4 a5 a6 rest
    h1 h2 h3 h4 h5 h6 :
  hex_digit a1 = Some h1 → hex_digit a2 = Some h2 →
  hex_digit a3 = Some h3 → hex_digit a4 = Some h4 →
  hex_digit a5 = Some h5 → hex_digit a6 = Some h6 →
  theme_colour int_lenient
    (replicate k 35%N ++ [a1; a2; a3; a4; a5; a6] ++ rest)
  = rgb (16 * h1 + h2) (16 * h3 + h4) (16 * h5 + h6).
Proof.
  intros H1 H2 H3 H4 H5 H6.
  unfold theme_colour, hex_to_rgb. rewrite lstrip_hash_hashes.
  cbn [app lstrip_hash].
  destruct (hex_digit_range _ _ H1) as [R1 Hne].
  destruct (N.eqb_spec a1 35) as [?|_]; [done|].
  cbn [take drop int16]. rewrite H1, H2, H3, H4, H5, H6.
  destruct (hex_digit_range _ _ H2) as [R2 _].
  destruct (hex_digit_range _ _ H3) as [R3 _].
  destruct (hex_digit_range _ _ H4) as [R4 _].
  destruct (hex_digit_range _ _ H5) as [R5 _].
  destruct (hex_digit_range _ _ H6) as [R6 _].
  rewrite take_0. rewrite RGBColor_new_ok by lia. reflexivity.
Qed.

(** X16.  A theme colour with at most four characters after its leading
    [#], such as the short form [#fff] or the empty string, gives navy. *)
Theorem theme_colour_short int_lenient theme_color :
  length (lstrip_hash theme_color) ≤ 4 →
  theme_colour int_lenient theme_color = rgb 0 51 102.
Proof.
  intros Hlen. unfold theme_colour, hex_to_rgb.
  rewrite (drop_ge _ 4) by exact Hlen. cbn [take int16].
  destruct (int16 _ _); [|reflexivity].
  destruct (int16 _ _); reflexivity.
Qed.

(** ** The content generator *)

Lemma starts_with_take needle k s :
  starts_with needle (take k s) = true → starts_with needle s = true.
Proof.
  revert k s. induction needle as [|n needle IH]; intros k s; [done|].
  destruct k as [|k], s as [|c s]; cbn; try done.
  intros [-> H]%andb_true_iff. cbn. eapply IH, H.
Qed.

Lemma contains_take needle k s :
  contains needle (take k s) = true → contains needle s = true.
Proof.
  revert k. induction s as [|c s IH]; intros k.
  - by rewrite take_nil.
  - destruct k as [|k].
    + cbn. rewrite orb_false_r. intros H.
      apply (starts_with_take needle 0 (c :: s)) in H. cbn in H.
      rewrite H. reflexivity.
    + cbn [take contains]. intros [H|H]%orb_true_iff.
      * apply (starts_with_take needle (S k) (c :: s)) in H. by rewrite H.
      * apply IH in H. rewrite H. apply orb_true_r.
Qed.

Lemma error_reply_detected message :
  contains (lit "Error:") (take 10 (lit "Error: " ++ message)) = true.
Proof. reflexivity. Qed.

Lemma not_initialized_detected :
  contains (lit "Error:") (take 10 not_initialized) = true.
Proof. reflexivity. Qed.

Section GeneratorFacts.

Variable genv : GroqEnv.

Lemma generate_slide_content_run topic feedback current_content g :
  generate_slide_content genv topic feedback current_content g
  = if can_connect genv g then
      let user_prompt := sent_prompt topic feedback current_content in
      let g' := mkGenerator true (chat_log g ++ [user_prompt]) in
      match chat_create genv (length (chat_log g)) user_prompt with
      | ChatContent reply_content => (reply_content, g')
      | ChatException message => (Some (lit "Error: " ++ message), g')
      end
    else (Some not_initialized, g).
Proof.
  unfold generate_slide_content, can_connect, initialize_client, sent_prompt.
  destruct g as [[|] chat]; cbn [client chat_log orb negb].
  - reflexivity.
  - destruct (truthy_opt (groq_api_key genv)); [|reflexivity].
    destruct (groq_client_ok genv); reflexivity.
Qed.

(** X17.  [generate_slide_content] without a client and without the means
    to make one returns the fixed error text and calls nothing.  Otherwise
    it keeps the client, sends one user prompt, and turns an exception of
    the API into [Error: ] followed by its message.  Every such failure
    text starts with [Error: ], so both tests of the page catch it. *)
Theorem generate_slide_content_failure topic feedback current_content g :
  let out := generate_slide_content genv topic feedback current_content g in
  let user_prompt := sent_prompt topic feedback current_content in
  (can_connect genv g = false → out = (Some not_initialized, g)) ∧
  (can_connect genv g = true →
   client (snd out) = true ∧
   chat_log (snd out) = chat_log g ++ [user_prompt] ∧
   ∀ message,
     chat_create genv (length (chat_log g)) user_prompt = ChatException message →
     fst out = Some (lit "Error: " ++ message)) ∧
  ((can_connect genv g = false ∨
    ∃ message, chat_create genv (length (chat_log g)) user_prompt
               = ChatException message) →
   ∃ response, fst out = Some response ∧
               starts_with (lit "Error: ") response = true ∧
               contains (lit "Error:") (take 10 response) = true ∧
               contains (lit "Error:") response = true).
Proof.
  intros out user_prompt. subst out. rewrite generate_slide_content_run.
  fold user_prompt. destruct (can_connect genv g); cbn zeta.
  - split; [discriminate|]. split.
    + intros _.
      destruct (chat_create genv (length (chat_log g)) user_prompt);
        cbn; repeat split; [discriminate | congruence].
    + intros [[=]|[message Hm]]. rewrite Hm. cbn [fst].
      exists (lit "Error: " ++ message). repeat split; reflexivity.
  - split; [reflexivity|]. split; [discriminate|].
    intros _. exists not_initialized. repeat split; reflexivity.
Qed.

End GeneratorFacts.

(** ** The chat page *)


Section PageFacts.

Variable env : Env.
Variable genv : GroqEnv.
Variable int_lenient : pystr → option Z.
Variable str_lower : pystr → pystr.

(** The first round, by the answer of the generator. *)
Lemma initial_generation_cases prompt a :
  let out := generate_slide_content genv prompt None None (generator a) in
  let a' := initial_generation genv prompt a in
  generator a' = snd out ∧ world a' = world a ∧
  ((∃ response,
      fst out = Some response ∧ truthy response = true ∧
      contains (lit "Error:") (take 10 response) = false ∧
      ppt_structure a' = Some response ∧
      messages a'
      = messages a ++ [mkMessage assistant response true;
                       mkMessage assistant follow_up_draft false] ∧
      shown a'
      = shown a ++ [(assistant, StWrite (lit "Here is the draft plan:"));
                    (assistant, StJson response);
                    (assistant, StWrite follow_up_draft)]) ∨
   (ppt_structure a' = ppt_structure a ∧ messages a' = messages a ∧
    (truthy_opt (fst out) = false ∨
     contains (lit "Error:") (take 10 (default [] (fst out))) = true) ∧
    ∃ shown_error,
      shown a' = shown a ++ [(assistant, StError shown_error)] ∧
      (truthy_opt (fst out) = true → shown_error = fst out))).
Proof.
  intros out a'. subst out a'. unfold initial_generation.
  destruct (generate_slide_content genv prompt None None (generator a))
    as [response g]. cbn [fst snd].
  destruct (truthy_opt response) eqn:Ht; cbn [andb].
  - destruct (contains _ _) eqn:Hc.
    + split; [reflexivity|]. split; [reflexivity|]. right.
      split; [reflexivity|]. split; [reflexivity|]. split; [by right|].
      eexists. split; [reflexivity|]. done.
    + split; [reflexivity|]. split; [reflexivity|]. left.
      destruct response as [response|]; [|discriminate].
      exists response. cbn [default] in *.
      split; [reflexivity|]. split; [exact Ht|]. split; [exact Hc|].
      split; [reflexivity|]. cbn. rewrite <- !app_assoc. split; reflexivity.
  - split; [reflexivity|]. split; [reflexivity|]. right.
    split; [reflexivity|]. split; [reflexivity|]. split; [by left|].
    eexists. split; [reflexivity|]. discriminate.
Qed.

(** A round of feedback, by the answer of the generator. *)
Lemma refine_cases prompt draft a :
  let out :=
    generate_slide_content genv prompt (Some prompt) (Some draft) (generator a) in
  let a' := refine genv prompt draft a in
  generator a' = snd out ∧ world a' = world a ∧
  ((∃ response,
      fst out = Some response ∧ truthy response = true ∧
      contains (lit "Error:") response = false ∧
      ppt_structure a' = Some response ∧
      messages a'
      = messages a ++ [mkMessage assistant response true;
                       mkMessage assistant follow_up_update false] ∧
      shown a'
      = shown a
        ++ [(assistant, StWrite (lit "Refining content based on your feedback..."));
            (assistant, StWrite (lit "Updated Draft:"));
            (assistant, StJson response);
            (assistant, StWrite follow_up_update)]) ∨
   (ppt_structure a' = ppt_structure a ∧ messages a' = messages a ∧
    (truthy_opt (fst out) = false ∨
     contains (lit "Error:") (default [] (fst out)) = true) ∧
    shown a'
    = shown a
      ++ [(assistant, StWrite (lit "Refining content based on your feedback..."));
          (assistant, StError (fst out))])).
Proof.
  intros out a'. subst out a'. unfold refine. cbn [generator show].
  destruct (generate_slide_content genv prompt (Some prompt) (Some draft)
              (generator a)) as [response g]. cbn [fst snd].
  destruct (truthy_opt response) eqn:Ht; cbn [andb].
  - destruct (contains _ _) eqn:Hc; cbn [negb].
    + split; [reflexivity|]. split; [reflexivity|]. right.
      split; [reflexivity|]. split; [reflexivity|]. split; [by right|].
      cbn. by rewrite <- !app_assoc.
    + split; [reflexivity|]. split; [reflexivity|]. left.
      destruct response as [response|]; [|discriminate].
      exists response. cbn [default] in *.
      split; [reflexivity|]. split; [exact Ht|]. split; [exact Hc|].
      split; [reflexivity|]. cbn. rewrite <- !app_assoc. split; reflexivity.
  - split; [reflexivity|]. split; [reflexivity|]. right.
    split; [reflexivity|]. split; [reflexivity|]. split; [by left|].
    cbn. by rewrite <- !app_assoc.
Qed.

(** The build, by what [create_ppt_file] gives. *)
Lemma build_file_cases theme_color draft a :
  let out :=
    create_ppt_file_themed int_lenient env draft true theme_color (world a) in
  let res := build_file env int_lenient theme_color draft a in
  generator (snd res) = generator a ∧
  world (snd res) = snd out ∧
  (ppt_structure (snd res) = ppt_structure a ∨ ppt_structure (snd res) = None) ∧
  ∃ extra more,
    messages (snd res) = messages a ++ extra ∧
    length extra ≤ 1 ∧ Forall (λ m, role m = assistant) extra ∧
    shown (snd res) = shown a ++ more.
Proof.
  intros out res. subst out res. unfold build_file.
  cbn [world show].
  destruct (create_ppt_file_themed int_lenient env draft true theme_color
              (world a)) as [[[name|]|e] w]; cbn [snd].
  - destruct (bool_decide (name = ""%string)).
    + cbn. split; [reflexivity|]. split; [reflexivity|]. split; [by left|].
      exists []. eexists. rewrite app_nil_r.
      split; [reflexivity|]. split; [cbn; lia|]. split; [constructor|].
      rewrite <- ?app_assoc. reflexivity.
    + destruct (files w !! name) as [file_data|].
      * cbn. split; [reflexivity|]. split; [reflexivity|]. split; [by right|].
        eexists [_]. eexists.
        split; [reflexivity|]. split; [cbn; lia|].
        split; [by repeat constructor|].
        rewrite <- ?app_assoc. reflexivity.
      * cbn. split; [reflexivity|]. split; [reflexivity|]. split; [by left|].
      exists []. eexists. rewrite app_nil_r.
      split; [reflexivity|]. split; [cbn; lia|]. split; [constructor|].
      rewrite <- ?app_assoc. reflexivity.
  - cbn. split; [reflexivity|]. split; [reflexivity|]. split; [by left|].
      exists []. eexists. rewrite app_nil_r.
      split; [reflexivity|]. split; [cbn; lia|]. split; [constructor|].
      rewrite <- ?app_assoc. reflexivity.
  - cbn. split; [reflexivity|]. split; [reflexivity|]. split; [by left|].
      exists []. eexists. rewrite app_nil_r.
      split; [reflexivity|]. split; [cbn; lia|]. split; [constructor|].
      rewrite <- ?app_assoc. reflexivity.
Qed.

End PageFacts.

Section PageTheorems.

Variable env : Env.
Variable genv : GroqEnv.
Variable int_lenient : pystr → option Z.
Variable str_lower : pystr → pystr.

Lemma generation_down_reply topic feedback current_content g :
  generation_down genv g →
  ∃ response g',
    generate_slide_content genv topic feedback current_content g
    = (Some response, g') ∧
    starts_with (lit "Error: ") response = true ∧
    contains (lit "Error:") (take 10 response) = true ∧
    contains (lit "Error:") response = true.
Proof.
  intros Hdown. rewrite generate_slide_content_run.
  destruct Hdown as [->|Hdown].
  - exists not_initialized, g. repeat split; reflexivity.
  - destruct (can_connect genv g).
    + cbn zeta.
      destruct (Hdown (sent_prompt topic feedback current_content))
        as [message ->].
      eexists _, _. split; [reflexivity|]. repeat split; reflexivity.
    + exists not_initialized, g. repeat split; reflexivity.
Qed.

Lemma starts_with_truthy response :
  starts_with (lit "Error: ") response = true → truthy response = true.
Proof. destruct response; [discriminate | reflexivity]. Qed.

(** X18.  The draft the page keeps is never empty and never has [Error:]
    in its first ten characters: handling a prompt preserves this. *)
Theorem handle_prompt_keeps_acceptable_draft theme_color prompt a :
  acceptable_draft (ppt_structure a) →
  acceptable_draft
    (ppt_structure
       (snd (handle_prompt env genv int_lenient str_lower theme_color prompt a))).
Proof.
  intros Hacc. unfold handle_prompt.
  set (a1 := show user (StWrite prompt)
               (append_message (mkMessage user prompt false) a)).
  assert (H1 : ppt_structure a1 = ppt_structure a) by reflexivity.
  destruct (ppt_structure a1) as [draft|] eqn:Hd.
  - destruct (bool_decide _).
    + destruct (build_file_cases env int_lenient theme_color draft a1)
        as (_ & _ & [Hs|Hs] & _).
      * rewrite Hs, Hd, H1. exact Hacc.
      * rewrite Hs. intros s [=].
    + cbn [snd].
      destruct (refine_cases genv prompt draft a1)
        as (_ & _ & [(response & _ & Ht & Hc & Hs & _)|(Hs & _)]).
      * rewrite Hs. intros s [= <-]. split; [exact Ht|].
        destruct (contains (lit "Error:") (take 10 response)) eqn:E;
          [|reflexivity].
        apply contains_take in E. congruence.
      * rewrite Hs, Hd, H1. exact Hacc.
  - cbn [snd].
    destruct (initial_generation_cases genv prompt a1)
      as (_ & _ & [(response & _ & Ht & Hc & Hs & _)|(Hs & _)]).
    + rewrite Hs. intros s [= <-]. done.
    + rewrite Hs, Hd. intros s [=].
Qed.

(** X19.  Handling a prompt only appends to the history: the prompt of the
    user first, then at most two messages of the assistant; what is shown
    grows the same way, also when the run raises. *)
Theorem handle_prompt_history theme_color prompt a :
  let a' :=
    snd (handle_prompt env genv int_lenient str_lower theme_color prompt a) in
  ∃ extra more,
    messages a' = messages a ++ mkMessage user prompt false :: extra ∧
    length extra ≤ 2 ∧
    Forall (λ m, role m = assistant) extra ∧
    shown a' = shown a ++ (user, StWrite prompt) :: more.
Proof.
  intros a'. subst a'. unfold handle_prompt.
  set (a1 := show user (StWrite prompt)
               (append_message (mkMessage user prompt false) a)).
  assert (Hm : messages a1 = messages a ++ [mkMessage user prompt false])
    by reflexivity.
  assert (Hs : shown a1 = shown a ++ [(user, StWrite prompt)]) by reflexivity.
  destruct (ppt_structure a1) as [draft|].
  - destruct (bool_decide _).
    + destruct (build_file_cases env int_lenient theme_color draft a1)
        as (_ & _ & _ & extra & more & Hme & Hlen & Hall & Hsh).
      exists extra, more. rewrite Hme, Hsh, Hm, Hs, <- !app_assoc.
      split; [reflexivity|]. split; [lia|]. split; [exact Hall | reflexivity].
    + cbn [snd].
      destruct (refine_cases genv prompt draft a1)
        as (_ & _ & [(response & _ & _ & _ & _ & Hme & Hsh)|(_ & Hme & _ & Hsh)]).
      * eexists _, _. rewrite Hme, Hsh, Hm, Hs, <- !app_assoc.
        split; [reflexivity|]. split; [cbn; lia|].
        split; [by repeat constructor | reflexivity].
      * exists []. eexists. rewrite Hme, Hsh, Hm, Hs, <- !app_assoc.
        split; [reflexivity|]. split; [cbn; lia|].
        split; [constructor | reflexivity].
  - cbn [snd].
    destruct (initial_generation_cases genv prompt a1)
      as (_ & _ & [(response & _ & _ & _ & _ & Hme & Hsh)
                  |(_ & Hme & _ & shown_error & Hsh & _)]).
    + eexists _, _. rewrite Hme, Hsh, Hm, Hs, <- !app_assoc.
      split; [reflexivity|]. split; [cbn; lia|].
      split; [by repeat constructor | reflexivity].
    + exists []. eexists. rewrite Hme, Hsh, Hm, Hs, <- !app_assoc.
      split; [reflexivity|]. split; [cbn; lia|].
      split; [constructor | reflexivity].
Qed.

(** X20.  When the generator fails, on a first prompt or on feedback, the
    page shows the error text, keeps the draft it had, adds only the
    prompt of the user to the history and leaves the world alone. *)
Theorem handle_prompt_generation_down theme_color prompt a :
  ppt_structure a = None ∨ str_lower prompt ∉ confirm_words →
  generation_down genv (generator a) →
  ∃ a' response,
    handle_prompt env genv int_lenient str_lower theme_color prompt a
    = (Ok tt, a') ∧
    ppt_structure a' = ppt_structure a ∧
    world a' = world a ∧
    messages a' = messages a ++ [mkMessage user prompt false] ∧
    last (shown a') = Some (assistant, StError (Some response)) ∧
    starts_with (lit "Error: ") response = true.
Proof.
  intros Hbranch Hdown. unfold handle_prompt.
  set (a1 := show user (StWrite prompt)
               (append_message (mkMessage user prompt false) a)).
  assert (H1 : ppt_structure a1 = ppt_structure a) by reflexivity.
  assert (Hg : generator a1 = generator a) by reflexivity.
  destruct (ppt_structure a1) as [draft|] eqn:Hd.
  - destruct Hbranch as [Hnone|Hno]; [congruence|].
    rewrite bool_decide_eq_false_2 by exact Hno.
    destruct (generation_down_reply prompt (Some prompt) (Some draft) _ Hdown)
      as (response & g' & Hgen & Hstart & _ & Hc).
    destruct (refine_cases genv prompt draft a1)
      as (_ & Hw & [(response' & Hr & _ & Hc' & _)|(Hs & Hme & _ & Hsh)]);
      rewrite Hg, Hgen in *; cbn [fst] in *.
    + injection Hr as <-. congruence.
    + eexists _, response. split; [reflexivity|].
      rewrite Hs, Hw, Hme, Hsh, Hd, H1.
      split; [reflexivity|]. split; [reflexivity|]. split; [reflexivity|].
      split; [|exact Hstart]. rewrite last_app. reflexivity.
  - destruct (generation_down_reply prompt None None _ Hdown)
      as (response & g' & Hgen & Hstart & Hc & _).
    destruct (initial_generation_cases genv prompt a1)
      as (_ & Hw & [(response' & Hr & _ & Hc' & _)
                   |(Hs & Hme & _ & shown_error & Hsh & Herr)]);
      rewrite Hg, Hgen in *; cbn [fst] in *.
    + injection Hr as <-. congruence.
    + eexists _, response. split; [reflexivity|].
      rewrite Hs, Hw, Hme, Hsh, Hd, <- H1.
      split; [reflexivity|]. split; [reflexivity|]. split; [reflexivity|].
      split; [|exact Hstart].
      rewrite Herr by (apply starts_with_truthy, Hstart). apply last_snoc.
Qed.

End PageTheorems.

Section PageTheorems2.

Variable env : Env.
Variable genv : GroqEnv.
Variable int_lenient : pystr → option Z.
Variable str_lower : pystr → pystr.


(** X26.  When the user accepts a draft that decodes to a content tree
    with a text python-pptx refuses, [create_ppt_file] raises [ValueError]
    and the run of the script stops there: the notice of the build is the
    last thing the script has shown, the draft is kept, nothing but the
    prompt of the user is added to the history, no deck is saved, and the
    generator is not called. *)
Theorem handle_prompt_accept_refused theme_color prompt a draft data :
  ppt_structure a = Some draft →
  str_lower prompt ∈ confirm_words →
  json_loads env draft = Some (JObject data) →
  texts_ok env (deck_texts data) = false →
  ∃ a',
    handle_prompt env genv int_lenient str_lower theme_color prompt a
    = (Raise ValueError, a') ∧
    ppt_structure a' = Some draft ∧
    generator a' = generator a ∧
    messages a' = messages a ++ [mkMessage user prompt false] ∧
    shown a'
    = shown a ++ [(user, StWrite prompt);
                  (assistant, StWrite (building_notice theme_color))] ∧
    files (world a') !! deck_filename env
    = files (world a) !! deck_filename env.
Proof.
  intros Hdraft Hyes Hparse Hno. unfold handle_prompt.
  set (a1 := show user (StWrite prompt)
               (append_message (mkMessage user prompt false) a)).
  change (ppt_structure a1) with (ppt_structure a). rewrite Hdraft.
  rewrite bool_decide_eq_true_2 by exact Hyes.
  unfold build_file. cbn [world show]. change (world a1) with (world a).
  unfold create_ppt_file_themed.
  destruct (create_ppt_file_refused env (theme_colour int_lenient theme_color)
              draft true data (world a) Hparse Hno)
    as (w & Hrun & Hfiles & _).
  rewrite Hrun. eexists. split; [reflexivity|]. subst a1.
  cbn [ppt_structure generator messages world shown show append_message
       set_world].
  split; [exact Hdraft|]. split; [reflexivity|]. split; [reflexivity|].
  split; [by rewrite <- app_assoc|].
  apply Hfiles. intros j _. apply deck_filename_not_temp.
Qed.

(** X22.  When the user accepts a draft that [json.loads] rejects, the
    page shows the failure, keeps the draft, builds nothing and adds only
    the prompt of the user to the history. *)
Theorem handle_prompt_accept_malformed theme_color prompt a draft :
  ppt_structure a = Some draft →
  str_lower prompt ∈ confirm_words →
  json_loads env draft = None →
  ∃ a',
    handle_prompt env genv int_lenient str_lower theme_color prompt a
    = (Ok tt, a') ∧
    ppt_structure a' = Some draft ∧
    generator a' = generator a ∧
    world a' = world a ∧
    messages a' = messages a ++ [mkMessage user prompt false] ∧
    last (shown a')
    = Some (assistant, StError (Some (lit "Failed to create PPT file."))).
Proof.
  intros Hdraft Hyes Hparse. unfold handle_prompt.
  set (a1 := show user (StWrite prompt)
               (append_message (mkMessage user prompt false) a)).
  change (ppt_structure a1) with (ppt_structure a). rewrite Hdraft.
  rewrite bool_decide_eq_true_2 by exact Hyes.
  unfold build_file. cbn [world show]. change (world a1) with (world a).
  unfold create_ppt_file_themed.
  unfold create_ppt_file. rewrite Hparse. unfold ret.
  eexists. split; [reflexivity|]. subst a1. cbn.
  split; [exact Hdraft|]. split; [reflexivity|]. split; [by destruct a|].
  split; [reflexivity|]. apply last_snoc.
Qed.

(** X23.  Only accepting a draft reaches [create_ppt_file]: a first prompt
    and feedback leave the world (slides, files, network log) as it was and
    do not raise.  Accepting a draft never calls the generator. *)
Theorem handle_prompt_separation theme_color prompt a :
  let res := handle_prompt env genv int_lenient str_lower theme_color prompt a in
  (ppt_structure a = None ∨ str_lower prompt ∉ confirm_words →
   fst res = Ok tt ∧ world (snd res) = world a) ∧
  (ppt_structure a ≠ None → str_lower prompt ∈ confirm_words →
   generator (snd res) = generator a).
Proof.
  intros res. subst res. unfold handle_prompt.
  set (a1 := show user (StWrite prompt)
               (append_message (mkMessage user prompt false) a)).
  assert (H1 : ppt_structure a1 = ppt_structure a) by reflexivity.
  destruct (ppt_structure a1) as [draft|] eqn:Hd; split.
  - intros [Hnone|Hno]; [congruence|].
    rewrite bool_decide_eq_false_2 by exact Hno. cbn [fst snd].
    split; [reflexivity|].
    by destruct (refine_cases genv prompt draft a1) as (_ & -> & _).
  - intros _ Hyes. rewrite bool_decide_eq_true_2 by exact Hyes.
    by destruct (build_file_cases env int_lenient theme_color draft a1)
      as (-> & _).
  - intros _. cbn [fst snd]. split; [reflexivity|].
    by destruct (initial_generation_cases genv prompt a1) as (_ & -> & _).
  - intros Hne. congruence.
Qed.

(** X24.  With a generator that can connect: the first prompt is sent as
    the topic; feedback on a draft is sent as the refinement prompt with the
    current draft and the feedback. *)
Theorem handle_prompt_sent theme_color prompt a :
  can_connect genv (generator a) = true →
  truthy prompt = true →
  acceptable_draft (ppt_structure a) →
  let a' :=
    snd (handle_prompt env genv int_lenient str_lower theme_color prompt a) in
  (ppt_structure a = None →
   chat_log (generator a')
   = chat_log (generator a) ++ [topic_prompt prompt]) ∧
  (∀ draft, ppt_structure a = Some draft →
     str_lower prompt ∉ confirm_words →
     chat_log (generator a')
     = chat_log (generator a) ++ [refine_prompt draft prompt]).
Proof.
  intros Hcan Hp Hacc a'. subst a'. unfold handle_prompt.
  set (a1 := show user (StWrite prompt)
               (append_message (mkMessage user prompt false) a)).
  assert (H1 : ppt_structure a1 = ppt_structure a) by reflexivity.
  assert (Hg : generator a1 = generator a) by reflexivity.
  split.
  - intros Hnone. rewrite H1, Hnone. cbn [snd].
    destruct (initial_generation_cases genv prompt a1) as (-> & _).
    rewrite Hg, generate_slide_content_run, Hcan. cbn zeta.
    by destruct (chat_create _ _ _).
  - intros draft Hdraft Hno. rewrite H1, Hdraft.
    rewrite bool_decide_eq_false_2 by exact Hno. cbn [snd].
    destruct (refine_cases genv prompt draft a1) as (-> & _).
    rewrite Hg, generate_slide_content_run, Hcan. cbn zeta.
    destruct (Hacc draft Hdraft) as [Hd _].
    unfold sent_prompt, truthy_opt.
    change (default [] (Some prompt)) with prompt.
    change (default [] (Some draft)) with draft.
    rewrite Hp, Hd. cbn [andb].
    by destruct (chat_create _ _ _).
Qed.

Lemma display_history_fold a ms :
  foldl (λ a m,
           show (role m)
             (if is_json m then StJson (message_content m)
              else StWrite (message_content m)) a) a ms
  = mkApp (messages a) (ppt_structure a) (generator a) (world a)
      (shown a ++ (render_message <$> ms)).
Proof.
  revert a. induction ms as [|m ms IH]; intros a.
  - cbn. rewrite app_nil_r. by destruct a.
  - cbn [foldl]. rewrite IH. cbn. by rewrite <- app_assoc.
Qed.

(** X25.  A run of the script without a prompt shows every message of the
    history once, in order, JSON drafts as JSON, and changes nothing
    else. *)
Theorem script_run_idle theme_color prompt a :
  truthy_opt prompt = false →
  script_run env genv int_lenient str_lower theme_color prompt a
  = (Ok tt,
     mkApp (messages a) (ppt_structure a) (generator a) (world a)
       (shown a ++ (render_message <$> messages a))).
Proof.
  intros Hp. unfold script_run. rewrite Hp. unfold display_history.
  by rewrite display_history_fold.
Qed.

End PageTheorems2.

(** ** Worked runs of the further properties *)


Lemma fetch_image_exhausted_witness :
  (∀ j, j < 2 →
        attempt_failed
          (requests_get (run_env (Response 503 []) true)
             (requests fresh_state + j) photo_url) = true) ∧
  fetch_image (run_env (Response 503 []) true) photo_url 2 fresh_state
  = (Ok None,
     mkState [] ∅ [EvGet photo_url; EvSleep 1; EvGet photo_url; EvSleep 2] 2).
Proof.
  assert (H : ∀ j, j < 2 →
                attempt_failed
                  (requests_get (run_env (Response 503 []) true)
                     (requests fresh_state + j) photo_url) = true)
    by (intros; reflexivity).
  split; [exact H|].
  exact (proj1 (fetch_image_exhausted (run_env (Response 503 []) true)
                  photo_url 2 fresh_state H)).
Defined.

Lemma fetch_image_first_success_witness :
  requests_get flaky_env (requests fresh_state + 2) photo_url
  = Response 200 tiny_gif ∧
  fetch_image flaky_env photo_url 3 fresh_state
  = (Ok (Some tiny_gif),
     mkState [] ∅
       [EvGet photo_url; EvSleep 1; EvGet photo_url; EvSleep 2; EvGet photo_url]
       3).
Proof.
  split; [reflexivity|].
  apply (fetch_image_first_success flaky_env photo_url 3 fresh_state 2 tiny_gif).
  - lia.
  - intros [|[|i]] Hi; [reflexivity | reflexivity | lia].
  - reflexivity.
Defined.

Lemma fetch_image_bounds_witness :
  ∃ r evs,
    fetch_image flaky_env photo_url 3 fresh_state
    = (Ok r, mkState [] ∅ evs (downloads evs)) ∧
    downloads evs ≤ 3 ∧ r ≠ None.
Proof.
  destruct (fetch_image_bounds flaky_env photo_url 3 fresh_state)
    as (r & evs & Hrun & Hd & _ & _ & Hnone).
  exists r, evs. split; [exact Hrun|]. split; [exact Hd|].
  intros Hr. pose proof (proj1 Hnone Hr 2 (le_n 3)) as Hc. discriminate Hc.
Defined.










Lemma theme_colour_valid_witness :
  hex_to_rgb strict_int (lit "notacolor") = None ∧
  theme_colour strict_int (lit "notacolor") = rgb 0 51 102.
Proof.
  split; [reflexivity|].
  exact (proj1 (proj2 (theme_colour_valid strict_int (lit "notacolor")))
           eq_refl).
Defined.

Lemma theme_colour_hex_witness :
  theme_colour strict_int (lit "#FF0000") = rgb 255 0 0.
Proof.
  exact (theme_colour_hex strict_int 1 70 70 48 48 48 48 [] 15 15 0 0 0 0
           eq_refl eq_refl eq_refl eq_refl eq_refl eq_refl).
Defined.

Lemma theme_colour_short_witness :
  length (lstrip_hash (lit "#fff")) ≤ 4 ∧
  theme_colour strict_int (lit "#fff") = rgb 0 51 102.
Proof.
  assert (H : length (lstrip_hash (lit "#fff")) ≤ 4) by (vm_compute; lia).
  split; [exact H|]. exact (theme_colour_short strict_int (lit "#fff") H).
Defined.

Lemma generate_slide_content_failure_witness :
  can_connect (mkGroqEnv None true (λ _ _, ChatContent None))
    (mkGenerator false []) = false ∧
  generate_slide_content (mkGroqEnv None true (λ _ _, ChatContent None))
    (lit "graphs") None None (mkGenerator false [])
  = (Some not_initialized, mkGenerator false []).
Proof.
  split; [reflexivity|].
  exact (proj1 (generate_slide_content_failure
                  (mkGroqEnv None true (λ _ _, ChatContent None))
                  (lit "graphs") None None (mkGenerator false []))
           eq_refl).
Defined.

Lemma handle_prompt_keeps_acceptable_draft_witness :
  acceptable_draft (ppt_structure fresh_app) ∧
  acceptable_draft
    (ppt_structure
       (snd (handle_prompt (run_env (Response 200 tiny_gif) true)
               (run_genv (ChatContent (Some graph_text))) strict_int
               ascii_lower (lit "#003366") (lit "graphs") fresh_app))).
Proof.
  assert (H : acceptable_draft (ppt_structure fresh_app)) by (intros s [=]).
  split; [exact H|].
  exact (handle_prompt_keeps_acceptable_draft (run_env (Response 200 tiny_gif) true)
           (run_genv (ChatContent (Some graph_text))) strict_int ascii_lower
           (lit "#003366") (lit "graphs") fresh_app H).
Defined.

Lemma handle_prompt_generation_down_witness :
  generation_down (run_genv (ChatException (lit "rate limit")))
    (generator fresh_app) ∧
  ∃ a' response,
    handle_prompt (run_env (Response 200 tiny_gif) true)
      (run_genv (ChatException (lit "rate limit"))) strict_int ascii_lower
      (lit "#003366") (lit "graphs") fresh_app
    = (Ok tt, a') ∧
    ppt_structure a' = None ∧
    last (shown a') = Some (assistant, StError (Some response)) ∧
    starts_with (lit "Error: ") response = true.
Proof.
  assert (H : generation_down (run_genv (ChatException (lit "rate limit")))
                (generator fresh_app)).
  { right. intros user_prompt. exists (lit "rate limit"). reflexivity. }
  split; [exact H|].
  destruct (handle_prompt_generation_down (run_env (Response 200 tiny_gif) true)
              (run_genv (ChatException (lit "rate limit"))) strict_int
              ascii_lower (lit "#003366") (lit "graphs") fresh_app
              (or_introl eq_refl) H)
    as (a' & response & Hrun & Hs & _ & _ & Hlast & Hstart).
  exists a', response. repeat (split; [assumption|]). assumption.
Defined.


Lemma handle_prompt_accept_refused_witness :
  json_loads (run_env (Response 200 tiny_gif) true) marked_text
  = Some (JObject marked_tree) ∧
  texts_ok (run_env (Response 200 tiny_gif) true) (deck_texts marked_tree)
  = false ∧
  ∃ a',
    handle_prompt (run_env (Response 200 tiny_gif) true)
      (run_genv (ChatContent (Some graph_text))) strict_int ascii_lower
      (lit "#003366") (lit "Yes")
      (mkApp initial_messages (Some marked_text) (mkGenerator true [])
         fresh_state [])
    = (Raise ValueError, a') ∧
    ppt_structure a' = Some marked_text ∧
    files (world a') !! deck_filename (run_env (Response 200 tiny_gif) true)
    = None.
Proof.
  split; [reflexivity|]. split; [reflexivity|].
  assert (Hyes : ascii_lower (lit "Yes") ∈ confirm_words)
    by (vm_compute; left).
  destruct (handle_prompt_accept_refused (run_env (Response 200 tiny_gif) true)
              (run_genv (ChatContent (Some graph_text))) strict_int
              ascii_lower (lit "#003366") (lit "Yes")
              (mkApp initial_messages (Some marked_text) (mkGenerator true [])
                 fresh_state [])
              marked_text marked_tree eq_refl Hyes eq_refl eq_refl)
    as (a' & Hrun & Hs & _ & _ & _ & Hfile).
  exists a'. split; [exact Hrun|]. split; [exact Hs|].
  rewrite Hfile. reflexivity.
Defined.

Lemma handle_prompt_accept_malformed_witness :
  json_loads (run_env (Response 200 tiny_gif) true) cut_text = None ∧
  ∃ a',
    handle_prompt (run_env (Response 200 tiny_gif) true)
      (run_genv (ChatContent (Some graph_text))) strict_int ascii_lower
      (lit "#003366") (lit "ok")
      (mkApp initial_messages (Some cut_text) (mkGenerator true [])
         fresh_state [])
    = (Ok tt, a') ∧
    ppt_structure a' = Some cut_text ∧
    world a' = fresh_state.
Proof.
  split; [reflexivity|].
  assert (Hyes : ascii_lower (lit "ok") ∈ confirm_words)
    by (vm_compute; do 3 right; left).
  destruct (handle_prompt_accept_malformed (run_env (Response 200 tiny_gif) true)
              (run_genv (ChatContent (Some graph_text))) strict_int
              ascii_lower (lit "#003366") (lit "ok")
              (mkApp initial_messages (Some cut_text) (mkGenerator true [])
                 fresh_state [])
              cut_text eq_refl Hyes eq_refl)
    as (a' & Hrun & Hs & _ & Hw & _).
  exists a'. repeat (split; [assumption|]). assumption.
Defined.

Lemma handle_prompt_separation_witness :
  ppt_structure fresh_app = None ∧
  world
    (snd (handle_prompt (run_env (Response 200 tiny_gif) true)
            (run_genv (ChatContent (Some graph_text))) strict_int ascii_lower
            (lit "#003366") (lit "yes") fresh_app))
  = fresh_state.
Proof.
  split; [reflexivity|].
  exact (proj2 (proj1 (handle_prompt_separation
                  (run_env (Response 200 tiny_gif) true)
                  (run_genv (ChatContent (Some graph_text))) strict_int
                  ascii_lower (lit "#003366") (lit "yes") fresh_app)
                (or_introl eq_refl))).
Defined.

Lemma handle_prompt_sent_witness :
  can_connect (run_genv (ChatContent (Some graph_text)))
    (generator drafted_app) = true ∧
  (ascii_lower (lit "more trees") ∉ confirm_words) ∧
  chat_log
    (generator
       (snd (handle_prompt (run_env (Response 200 tiny_gif) true)
               (run_genv (ChatContent (Some graph_text))) strict_int
               ascii_lower (lit "#003366") (lit "more trees") drafted_app)))
  = [refine_prompt graph_text (lit "more trees")].
Proof.
  assert (Hno : ascii_lower (lit "more trees") ∉ confirm_words).
  { intros H. vm_compute in H.
    repeat (apply elem_of_cons in H as [H|H]; [discriminate H|]).
    by apply elem_of_nil in H. }
  split; [reflexivity|]. split; [exact Hno|].
  assert (Hacc : acceptable_draft (ppt_structure drafted_app)).
  { intros s [= <-]. split; reflexivity. }
  exact (proj2 (handle_prompt_sent (run_env (Response 200 tiny_gif) true)
                  (run_genv (ChatContent (Some graph_text))) strict_int
                  ascii_lower (lit "#003366") (lit "more trees") drafted_app
                  eq_refl eq_refl Hacc)
           graph_text eq_refl Hno).
Defined.

Lemma script_run_idle_witness :
  truthy_opt None = false ∧
  script_run (run_env (Response 200 tiny_gif) true)
    (run_genv (ChatContent (Some graph_text))) strict_int ascii_lower
    (lit "#003366") None fresh_app
  = (Ok tt,
     mkApp initial_messages None (mkGenerator false []) fresh_state
       [(assistant,
         StWrite (lit "Hello! What topic would you like a presentation on?"))]).
Proof.
  split; [reflexivity|].
  exact (script_run_idle (run_env (Response 200 tiny_gif) true)
           (run_genv (ChatContent (Some graph_text))) strict_int ascii_lower
           (lit "#003366") None fresh_app eq_refl).
Defined.
